(** * Heads-or-tails betting bot ([bet.py]): round lifecycle and slot accounting

    A shallow embedding of the command handlers of [bet.py] over an explicit
    model of the MongoDB collections they read and write, followed by the
    properties of the round lifecycle: slot accounting, approval, payment
    attempts, result declaration and reset.

    Collections are lists of documents in insertion order ([find_one] and
    [update_one] act on the first match, [find] and [update_many] on every
    match).  The [settings], [results] and [winners] collections hold the one
    document created when the module is loaded and are records here.  The
    [pending_confirmations] collection is never read by a handler and is left
    out.  A handler returns the messages it sends together with the new
    database. *)

From Stdlib Require Import ZArith List String Ascii Bool Lia DecimalString.
Import ListNotations.

Local Open Scope string_scope.
Local Open Scope list_scope.
Local Open Scope Z_scope.

(** ** Documents *)

(** The two values a stored [bet] can take besides [None]. *)
Inductive Side : Type := heads | tails.

(** The three values a stored [status] can take besides [None]. *)
Inductive Status : Type := waiting | approved | disapproved.

Definition Side_eqb (a b : Side) : bool :=
  match a, b with
  | heads, heads | tails, tails => true
  | _, _ => false
  end.

Definition Status_eqb (a b : Status) : bool :=
  match a, b with
  | waiting, waiting | approved, approved | disapproved, disapproved => true
  | _, _ => false
  end.

(** A document of [users_collection].  The collection is seeded with one empty
    document, so ['user_id'] may be absent ([None]); MongoDB treats the other
    fields of such a document as null in queries. *)
Record User : Type := mkUser {
  user_id : option Z;
  name : string;
  bet_of : option Side;
  status : option Status;
  payment_attempts : Z
}.

(** The document of [settings_collection]. *)
Record Settings : Type := mkSettings {
  next_betting_time : option string;
  betting_open : bool;
  total_slots : Z;
  available_slots : Z;
  result_announcement_time : option string
}.

(** The document of [results_collection]: key [heads] and key [tails]. *)
Record Results : Type := mkResults {
  heads_wins : Z;
  tails_wins : Z
}.

(** The database [db]: the collections the handlers use. *)
Record DB : Type := mkDB {
  users : list User;
  settings : Settings;
  results : Results;
  winners : list Z
}.

Definition with_users (f : list User -> list User) (db : DB) : DB :=
  mkDB (f (users db)) (settings db) (results db) (winners db).

Definition with_settings (f : Settings -> Settings) (db : DB) : DB :=
  mkDB (users db) (f (settings db)) (results db) (winners db).

Definition with_results (f : Results -> Results) (db : DB) : DB :=
  mkDB (users db) (settings db) (f (results db)) (winners db).

Definition with_winners (w : list Z) (db : DB) : DB :=
  mkDB (users db) (settings db) (results db) w.

(** ** Collection operations *)

(** [find_one(q)]: the first document matching [q]. *)
Definition find_one (q : User -> bool) (us : list User) : option User :=
  List.find q us.

(** [find(q)]: every document matching [q], in order. *)
Definition find_all (q : User -> bool) (us : list User) : list User :=
  List.filter q us.

(** [update_one(q, upd)]: the first document matching [q] is updated. *)
Fixpoint update_one (q : User -> bool) (upd : User -> User) (us : list User)
  : list User :=
  match us with
  | [] => []
  | u :: rest => if q u then upd u :: rest else u :: update_one q upd rest
  end.

(** [update_many(q, upd)]: every document matching [q] is updated. *)
Definition update_many (q : User -> bool) (upd : User -> User)
  (us : list User) : list User :=
  List.map (fun u => if q u then upd u else u) us.

(** [insert_one(doc)]. *)
Definition insert_one (u : User) (us : list User) : list User := us ++ [u].

(** The query [{"user_id": uid}]. *)
Definition q_user_id (uid : Z) (u : User) : bool :=
  match user_id u with
  | Some i => i =? uid
  | None => false
  end.

(** The query [{"bet": {"$ne": None}}]. *)
Definition q_bet_ne_None (u : User) : bool :=
  match bet_of u with
  | Some _ => true
  | None => false
  end.

(** The query [{"bet": result, "status": "approved"}]. *)
Definition q_bet_approved (result : Side) (u : User) : bool :=
  match bet_of u, status u with
  | Some b, Some s => Side_eqb b result && Status_eqb s approved
  | _, _ => false
  end.

(** The update [{"$set": {"bet": b}}]. *)
Definition set_bet (b : option Side) (u : User) : User :=
  mkUser (user_id u) (name u) b (status u) (payment_attempts u).

(** The update [{"$set": {"status": s}}]. *)
Definition set_status (s : option Status) (u : User) : User :=
  mkUser (user_id u) (name u) (bet_of u) s (payment_attempts u).

(** The update [{"$inc": {"payment_attempts": 1}}]. *)
Definition inc_payment_attempts (u : User) : User :=
  mkUser (user_id u) (name u) (bet_of u) (status u) (payment_attempts u + 1).

(** The update [{"$set": {"status": s, "payment_attempts": 0}}]. *)
Definition set_status_attempts0 (s : Status) (u : User) : User :=
  mkUser (user_id u) (name u) (bet_of u) (Some s) 0.

(** The update [{"$set": {"bet": None, "status": None, "payment_attempts": 0}}]. *)
Definition clear_round (u : User) : User :=
  mkUser (user_id u) (name u) None None 0.

(** The update [{"$inc": {"available_slots": -1}}]. *)
Definition dec_available_slots (s : Settings) : Settings :=
  mkSettings (next_betting_time s) (betting_open s) (total_slots s)
    (available_slots s + -1) (result_announcement_time s).

(** The update [{"$set": {"available_slots": n}}]. *)
Definition set_available_slots (n : Z) (s : Settings) : Settings :=
  mkSettings (next_betting_time s) (betting_open s) (total_slots s)
    n (result_announcement_time s).

(** The update [{"$set": {"available_slots": n, "next_betting_time": None,
    "result_announcement_time": None}}]. *)
Definition reset_settings (n : Z) (s : Settings) : Settings :=
  mkSettings None (betting_open s) (total_slots s) n None.

(** The update [{"$set": {"next_betting_time": t}}]. *)
Definition set_next_betting_time (t : string) (s : Settings) : Settings :=
  mkSettings (Some t) (betting_open s) (total_slots s)
    (available_slots s) (result_announcement_time s).

(** The update [{"$set": {"result_announcement_time": t}}]. *)
Definition set_result_announcement_time (t : string) (s : Settings)
  : Settings :=
  mkSettings (next_betting_time s) (betting_open s) (total_slots s)
    (available_slots s) (Some t).

(** The update [{"$set": {"total_slots": n, "available_slots": n}}]. *)
Definition set_total_slots (n : Z) (s : Settings) : Settings :=
  mkSettings (next_betting_time s) (betting_open s) n n
    (result_announcement_time s).

(** The update [{"$set": {"betting_open": b}}]. *)
Definition set_betting_open (b : bool) (s : Settings) : Settings :=
  mkSettings (next_betting_time s) b (total_slots s)
    (available_slots s) (result_announcement_time s).

(** The update [{"$inc": {result: 1}}]. *)
Definition inc_result (result : Side) (r : Results) : Results :=
  match result with
  | heads => mkResults (heads_wins r + 1) (tails_wins r)
  | tails => mkResults (heads_wins r) (tails_wins r + 1)
  end.

(** What the store can hold as an integer: the BSON encoder of the driver
    raises [OverflowError] on an [int] outside 8 bytes. *)
Definition fits_int64 (n : Z) : bool :=
  (- 2 ^ 63 <=? n) && (n <? 2 ^ 63).

(** ** Strings *)

(** [str.lower()] on one character, for the ASCII letters.  A text that
    lowers to ["heads"] or ["tails"] consists of ASCII letters only, so the
    membership test of [declare_result] is decided by this. *)
Definition lower_ascii (c : ascii) : ascii :=
  let n := nat_of_ascii c in
  if (65 <=? n)%nat && (n <=? 90)%nat then ascii_of_nat (n + 32) else c.

Fixpoint lower (s : string) : string :=
  match s with
  | EmptyString => EmptyString
  | String c rest => String (lower_ascii c) (lower rest)
  end.

(** The test [x in ["heads", "tails"]], returning the side named. *)
Definition side_of_string (x : string) : option Side :=
  if String.eqb x "heads" then Some heads
  else if String.eqb x "tails" then Some tails
  else None.

(** [" ".join(args)]. *)
Definition join_args (args : list string) : string := String.concat " " args.

(** ** Messages *)

(** The texts the handlers send, by kind. *)
Inductive Msg : Type :=
| MsgWelcome
| MsgBettingClosed
| MsgSlotsFull
| MsgPlaceYourBet
| MsgStartFirst
| MsgAlreadyBet
| MsgInvalidChoice
| MsgPaymentQR (choice : Side)
| MsgPlaceBetFirst
| MsgMaxAttempts
| MsgFinalAttempt
| MsgNewPayment (uid : Z) (nm : string) (b : option Side) (attempts : Z)
| MsgScreenshotSent
| MsgNotAuthorized
| MsgUsage
| MsgBetApproved
| MsgUserApproved (uid : Z)
| MsgUserNotFound
| MsgPaymentDisapproved
| MsgUserDisapproved (uid : Z)
| MsgInvalidResult
| MsgResultDeclared (result : Side)
| MsgResultsOut (result : Side)
| MsgRoundReset
| MsgResetComplete
| MsgBettingScheduled (t : string)
| MsgNewRoundScheduled (t : string)
| MsgInvalidDatetime
| MsgTotalSlotsSet (n : Z)
| MsgInvalidNumber
| MsgAnnouncementSet (t : string)
| MsgAnnouncementScheduled (t : string)
| MsgBettingNowClosed
| MsgBettingNowOpen.

(** What a handler does besides writing to the database. *)
Inductive Out : Type :=
| reply_text (m : Msg)
| reply_photo (m : Msg)
| answer
| send_message (chat_id : Z) (m : Msg)
| forward_message (chat_id : Z)
| uncaught_ValueError
| uncaught_KeyError
| uncaught_OverflowError.

(** The notification loop whose [except] clause reads [user.get('user_id')]:
    a document without ['user_id'] is skipped, a failed send is logged. *)
Definition notify_all (m : Msg) (us : list User) : list Out :=
  flat_map (fun u => match user_id u with
                     | Some i => [send_message i m]
                     | None => []
                     end) us.

(** The notification loop whose [except] clause reads [user['user_id']]: at
    the first document without ['user_id'] the [KeyError] leaves the loop and
    [on_error] says what follows. *)
Fixpoint notify_until_KeyError (m : Msg) (on_error : list Out)
  (us : list User) : list Out :=
  match us with
  | [] => []
  | u :: rest =>
      match user_id u with
      | Some i => send_message i m :: notify_until_KeyError m on_error rest
      | None => on_error
      end
  end.

(** A sequence of database writes, applied in order. *)
Definition apply_writes (ws : list (DB -> DB)) (db : DB) : DB :=
  fold_left (fun d w => w d) ws db.

(** ** Running the handlers on concrete commands *)

(** [int] on plain ASCII decimal numerals, to run commands on. *)
Definition int_of_decimal (s : string) : option Z :=
  option_map Z.of_int (NilEmpty.int_of_string s).

(** The operator of the concrete runs. *)
Definition operator : Z := 1.

(** ** Command handlers *)

Section Bot.

(** [ADMIN_ID], read from the environment when the module is loaded. *)
Variable ADMIN_ID : Z.

(** Python's [int] on a command argument: [None] when it raises
    [ValueError]. *)
Variable py_int : string -> option Z.

(** [/start]: registers the caller on first contact. *)
Definition start (uid : Z) (full_name : string) (db : DB) : list Out * DB :=
  match find_one (q_user_id uid) (users db) with
  | Some _ => ([reply_text MsgWelcome], db)
  | None =>
      ([reply_text MsgWelcome],
       with_users (insert_one (mkUser (Some uid) full_name None None 0)) db)
  end.

(** [/bet]: checks the round and shows the two buttons. *)
Definition bet (db : DB) : list Out * DB :=
  if negb (betting_open (settings db)) then ([reply_text MsgBettingClosed], db)
  else if available_slots (settings db) <=? 0 then ([reply_text MsgSlotsFull], db)
  else ([reply_text MsgPlaceYourBet], db).

(** The button callback: [data] is the callback data of the button pressed. *)
Definition handle_bet_choice (uid : Z) (data : string) (db : DB)
  : list Out * DB :=
  match find_one (q_user_id uid) (users db) with
  | None => ([reply_text MsgStartFirst; answer], db)
  | Some user_data =>
      match bet_of user_data with
      | Some _ => ([reply_text MsgAlreadyBet; answer], db)
      | None =>
          match side_of_string data with
          | None => ([reply_text MsgInvalidChoice; answer], db)
          | Some choice =>
              ([reply_photo (MsgPaymentQR choice); answer],
               with_users (update_one (q_user_id uid) (set_bet (Some choice))) db)
          end
      end
  end.

(** The two [update_one] calls of [handle_payment_screenshot], in the order
    they are issued. *)
Definition payment_writes (uid : Z) : list (DB -> DB) :=
  [ with_users (update_one (q_user_id uid) (set_status (Some waiting)));
    with_users (update_one (q_user_id uid) inc_payment_attempts) ].

(** A photo message: a payment screenshot. *)
Definition handle_payment_screenshot (uid : Z) (db : DB) : list Out * DB :=
  match find_one (q_user_id uid) (users db) with
  | None => ([reply_text MsgStartFirst], db)
  | Some user_data =>
      match bet_of user_data with
      | None => ([reply_text MsgPlaceBetFirst], db)
      | Some _ =>
          if payment_attempts user_data >=? 3
          then ([reply_text MsgMaxAttempts], db)
          else
            ((if payment_attempts user_data + 1 =? 3
              then [reply_text MsgFinalAttempt] else [])
             ++ [ forward_message ADMIN_ID;
                  send_message ADMIN_ID
                    (MsgNewPayment uid (name user_data) (bet_of user_data)
                       (payment_attempts user_data + 1));
                  reply_text MsgScreenshotSent ],
             apply_writes (payment_writes uid) db)
      end
  end.

(** [/approve <user_id>]. *)
Definition approve_user (caller : Z) (args : list string) (db : DB)
  : list Out * DB :=
  if negb (caller =? ADMIN_ID) then ([reply_text MsgNotAuthorized], db)
  else
    match args with
    | [] => ([reply_text MsgUsage], db)
    | a :: _ =>
        match py_int a with
        | None => ([uncaught_ValueError], db)
        | Some uid =>
            match find_one (q_user_id uid) (users db) with
            | Some _ =>
                ([send_message uid MsgBetApproved;
                  reply_text (MsgUserApproved uid)],
                 with_settings dec_available_slots
                   (with_users
                      (update_one (q_user_id uid)
                         (set_status_attempts0 approved)) db))
            | None => ([reply_text MsgUserNotFound], db)
            end
        end
    end.

(** [/disapprove <user_id>]. *)
Definition disapprove_user (caller : Z) (args : list string) (db : DB)
  : list Out * DB :=
  if negb (caller =? ADMIN_ID) then ([reply_text MsgNotAuthorized], db)
  else
    match args with
    | [] => ([reply_text MsgUsage], db)
    | a :: _ =>
        match py_int a with
        | None => ([uncaught_ValueError], db)
        | Some uid =>
            match find_one (q_user_id uid) (users db) with
            | Some _ =>
                ([send_message uid MsgPaymentDisapproved;
                  reply_text (MsgUserDisapproved uid)],
                 with_users
                   (update_one (q_user_id uid)
                      (set_status_attempts0 disapproved)) db)
            | None => ([reply_text MsgUserNotFound], db)
            end
        end
    end.

(** The list comprehension of [declare_result]: the ['user_id'] of every
    document matching [{"bet": result, "status": "approved"}] that has one. *)
Definition identify_winners (result : Side) (us : list User) : list Z :=
  flat_map (fun u => match user_id u with
                     | Some i => [i]
                     | None => []
                     end)
    (find_all (q_bet_approved result) us).

(** [/declare <heads|tails>].  The reply to the operator and the
    notifications come between the counter update and the winner
    computation; they are taken to be delivered. *)
Definition declare_result (caller : Z) (args : list string) (db : DB)
  : list Out * DB :=
  if negb (caller =? ADMIN_ID) then ([reply_text MsgNotAuthorized], db)
  else
    match args with
    | [] => ([reply_text MsgUsage], db)
    | a :: _ =>
        match side_of_string (lower a) with
        | None => ([reply_text MsgInvalidResult], db)
        | Some result =>
            let db1 := with_results (inc_result result) db in
            let outs := reply_text (MsgResultDeclared result)
                        :: notify_all (MsgResultsOut result) (users db1) in
            let db2 := with_winners (identify_winners result (users db1)) db1 in
            let db3 := with_settings
                         (set_available_slots (total_slots (settings db2))) db2 in
            (outs, db3)
        end
    end.

(** [/reset] (the module defines [reset] twice with the same body; the second
    definition is the one registered). *)
Definition reset (caller : Z) (db : DB) : list Out * DB :=
  if negb (caller =? ADMIN_ID) then ([reply_text MsgNotAuthorized], db)
  else
    let db1 := with_users (update_many q_bet_ne_None clear_round) db in
    let db2 := with_winners [] db1 in
    let db3 := with_results (fun _ => mkResults 0 0) db2 in
    let db4 := with_settings
                 (reset_settings (total_slots (settings db3))) db3 in
    (notify_all MsgRoundReset (users db4) ++ [reply_text MsgResetComplete], db4).

(** [/schedule <datetime>]. *)
Definition schedule_betting (caller : Z) (args : list string) (db : DB)
  : list Out * DB :=
  if negb (caller =? ADMIN_ID) then ([reply_text MsgNotAuthorized], db)
  else
    match args with
    | [] => ([reply_text MsgUsage], db)
    | _ :: _ =>
        let t := join_args args in
        let db1 := with_settings (set_next_betting_time t) db in
        (reply_text (MsgBettingScheduled t)
         :: notify_all (MsgNewRoundScheduled t) (users db1), db1)
    end.

(** [/fixslots <number>]: the [except] clause catches [ValueError] only, so
    the [OverflowError] of a number the store cannot hold leaves the handler
    before anything is written or replied. *)
Definition fix_slots (caller : Z) (args : list string) (db : DB)
  : list Out * DB :=
  if negb (caller =? ADMIN_ID) then ([reply_text MsgNotAuthorized], db)
  else
    match args with
    | [] => ([reply_text MsgUsage], db)
    | a :: _ =>
        match py_int a with
        | Some n =>
            if fits_int64 n
            then ([reply_text (MsgTotalSlotsSet n)],
                  with_settings (set_total_slots n) db)
            else ([uncaught_OverflowError], db)
        | None => ([reply_text MsgInvalidNumber], db)
        end
    end.

(** [/setannouncement <datetime>]. *)
Definition set_announcement_time (caller : Z) (args : list string) (db : DB)
  : list Out * DB :=
  if negb (caller =? ADMIN_ID) then ([reply_text MsgNotAuthorized], db)
  else
    match args with
    | [] => ([reply_text MsgUsage], db)
    | _ :: _ =>
        let t := join_args args in
        let db1 := with_settings (set_result_announcement_time t) db in
        (reply_text (MsgAnnouncementSet t)
         :: notify_until_KeyError (MsgAnnouncementScheduled t)
              [reply_text MsgInvalidDatetime] (users db1), db1)
    end.

(** [/close]. *)
Definition close_betting (caller : Z) (db : DB) : list Out * DB :=
  if negb (caller =? ADMIN_ID) then ([reply_text MsgNotAuthorized], db)
  else
    let db1 := with_settings (set_betting_open false) db in
    (reply_text MsgBettingNowClosed
     :: notify_until_KeyError MsgBettingNowClosed [uncaught_KeyError]
          (users db1), db1).

(** [/open]. *)
Definition open_betting (caller : Z) (db : DB) : list Out * DB :=
  if negb (caller =? ADMIN_ID) then ([reply_text MsgNotAuthorized], db)
  else
    let db1 := with_settings (set_betting_open true) db in
    (reply_text MsgBettingNowOpen
     :: notify_until_KeyError MsgBettingNowOpen [uncaught_KeyError]
          (users db1), db1).

(** ** The bot as a transition system *)

(** The updates dispatched by [main] to a handler that writes to the database,
    and [/bet].  The remaining commands only read. *)
Inductive Event : Type :=
| EvStart (uid : Z) (full_name : string)
| EvBet (uid : Z)
| EvBetChoice (uid : Z) (data : string)
| EvPhoto (uid : Z)
| EvApprove (caller : Z) (args : list string)
| EvDisapprove (caller : Z) (args : list string)
| EvDeclare (caller : Z) (args : list string)
| EvReset (caller : Z)
| EvSchedule (caller : Z) (args : list string)
| EvFixSlots (caller : Z) (args : list string)
| EvSetAnnouncement (caller : Z) (args : list string)
| EvClose (caller : Z)
| EvOpen (caller : Z).

Definition handle (ev : Event) (db : DB) : list Out * DB :=
  match ev with
  | EvStart uid full_name => start uid full_name db
  | EvBet _ => bet db
  | EvBetChoice uid data => handle_bet_choice uid data db
  | EvPhoto uid => handle_payment_screenshot uid db
  | EvApprove caller args => approve_user caller args db
  | EvDisapprove caller args => disapprove_user caller args db
  | EvDeclare caller args => declare_result caller args db
  | EvReset caller => reset caller db
  | EvSchedule caller args => schedule_betting caller args db
  | EvFixSlots caller args => fix_slots caller args db
  | EvSetAnnouncement caller args => set_announcement_time caller args db
  | EvClose caller => close_betting caller db
  | EvOpen caller => open_betting caller db
  end.

Definition step (ev : Event) (db : DB) : DB := snd (handle ev db).

(** The database after the updates [evs], handled one at a time. *)
Definition run (evs : list Event) (db : DB) : DB :=
  fold_left (fun d ev => step ev d) evs db.

(** The database when [handle_payment_screenshot], on a submission it
    accepts, stops after its first [k] writes. *)
Definition payment_interrupted (k : nat) (uid : Z) (db : DB) : DB :=
  apply_writes (firstn k (payment_writes uid)) db.

(** ** Predicates of the specification *)

(** The slot invariant of the settings record. *)
Definition slots_invariant (db : DB) : Prop :=
  0 <= available_slots (settings db) <= total_slots (settings db).

(** Its upper half. *)
Definition slots_le_total (db : DB) : Prop :=
  available_slots (settings db) <= total_slots (settings db).

(** No user has more than three payment attempts. *)
Definition attempts_le_3 (db : DB) : Prop :=
  Forall (fun u => payment_attempts u <= 3) (users db).

(** A user without a bet has no payment attempt. *)
Definition no_bet_no_attempt (db : DB) : Prop :=
  Forall (fun u => bet_of u = None -> payment_attempts u = 0) (users db).

(** The status write and the increment of an accepted payment submission
    form one unit: wherever the handler stops, the database holds both or
    neither. *)
Definition payment_atomic (uid : Z) (db : DB) : Prop :=
  forall k : nat,
    payment_interrupted k uid db = db \/
    payment_interrupted k uid db = snd (handle_payment_screenshot uid db).

(** The updates that write the [winners] document. *)
Definition writes_winners (ev : Event) : bool :=
  match ev with
  | EvDeclare _ _ | EvReset _ => true
  | _ => false
  end.

(** An [/approve] that went through, as the operator sees it. *)
Definition approved_reply (uid : Z) : list Out :=
  [send_message uid MsgBetApproved; reply_text (MsgUserApproved uid)].

(** ** Concrete databases and commands *)

(** The collections as the module creates them on a fresh database. *)
Definition initial_db : DB :=
  mkDB [mkUser None "" None None 0]
       (mkSettings None false 30 30 None)
       (mkResults 0 0)
       [].

(** One slot, two users who each bet and pay, and the operator approves
    both. *)
Definition oversell_events : list Event :=
  [ EvFixSlots operator ["1"];
    EvOpen operator;
    EvStart 7 "A"; EvStart 8 "B";
    EvBet 7; EvBetChoice 7 "heads";
    EvBet 8; EvBetChoice 8 "tails";
    EvPhoto 7; EvPhoto 8;
    EvApprove operator ["7"];
    EvApprove operator ["8"] ].


(** The button of each side, as [/bet] builds it: its callback data. *)
Definition callback_data (choice : Side) : string :=
  match choice with
  | heads => "heads"
  | tails => "tails"
  end.

(** A round in which user 7 bet on heads, paid and was approved. *)
Definition approved_db : DB :=
  mkDB [mkUser (Some 7) "A" (Some heads) (Some approved) 0]
       (mkSettings None true 2 1 None)
       (mkResults 0 0)
       [].

(** A round in which user 7 bet on heads and has not paid yet. *)
Definition bet_placed_db : DB :=
  mkDB [mkUser (Some 7) "A" (Some heads) None 0]
       (mkSettings None true 2 2 None)
       (mkResults 0 0)
       [].

(** ** Read-only commands *)

(** One entry of a listing: the ['user_id'], name, bet and status of a
    document that has a ['user_id']. *)
Record Entry : Type := mkEntry {
  entry_id : Z;
  entry_name : string;
  entry_bet : option Side;
  entry_status : option Status
}.

(** The listing loops: a document without ['user_id'] is skipped. *)
Definition entries_of (us : list User) : list Entry :=
  flat_map (fun u => match user_id u with
                     | Some i => [mkEntry i (name u) (bet_of u) (status u)]
                     | None => []
                     end) us.

(** The query [{"status": "waiting"}]. *)
Definition q_status_waiting (u : User) : bool :=
  match status u with
  | Some waiting => true
  | _ => false
  end.

(** The query [{"status": "approved", "bet": {"$ne": None}}]. *)
Definition q_participant (u : User) : bool :=
  match status u, bet_of u with
  | Some approved, Some _ => true
  | _, _ => false
  end.

(** The single reply of a command that only reads. *)
Inductive View : Type :=
| ViewNotAuthorized
| ViewNoUsers
| ViewAllUsers (total_users : nat) (es : list Entry)
| ViewNoPending
| ViewPending (es : list Entry)
| ViewStartFirst
| ViewNoBetPlaced
| ViewApproved (user_bet : Side)
| ViewDisapproved
| ViewWaiting (user_bet : Side)
| ViewUnknownStatus
| ViewResultsNotDeclared (announcement_time : option string)
| ViewResultsDeclared (h t : Z) (announcement_time : option string)
| ViewNoParticipants
| ViewParticipants (es : list Entry)
| ViewNextRound (t : string)
| ViewNoRound
| ViewSlots (available total : Z)
| ViewNoWinners
| ViewWinners (es : list Entry).

(** What [/broadcast] reports. *)
Inductive BroadcastResult : Type :=
| BroadcastNotAuthorized
| BroadcastUsage
| BroadcastSummary (message : string) (total_users success_count fail_count
                      skipped_count : nat).

(** The sending loop of [broadcast] with its three counters; [delivers i]
    says whether [send_message] to [i] returns rather than raises. *)
Fixpoint broadcast_loop (delivers : Z -> bool) (us : list User)
  (success_count fail_count skipped_count : nat) : nat * nat * nat :=
  match us with
  | [] => (success_count, fail_count, skipped_count)
  | u :: rest =>
      match user_id u with
      | None =>
          broadcast_loop delivers rest success_count fail_count
            (skipped_count + 1)
      | Some i =>
          if delivers i
          then broadcast_loop delivers rest (success_count + 1) fail_count
                 skipped_count
          else broadcast_loop delivers rest success_count (fail_count + 1)
                 skipped_count
      end
  end.

(** [/showall]. *)
Definition show_all_users (caller : Z) (db : DB) : View :=
  if negb (caller =? ADMIN_ID) then ViewNotAuthorized
  else
    let all_users := find_all (fun _ => true) (users db) in
    match all_users with
    | [] => ViewNoUsers
    | _ :: _ => ViewAllUsers (List.length all_users) (entries_of all_users)
    end.

(** [/pending]. *)
Definition view_pending_confirmations (caller : Z) (db : DB) : View :=
  if negb (caller =? ADMIN_ID) then ViewNotAuthorized
  else
    match find_all q_status_waiting (users db) with
    | [] => ViewNoPending
    | pending_users => ViewPending (entries_of pending_users)
    end.

(** [/status]. *)
Definition check_status (uid : Z) (db : DB) : View :=
  match find_one (q_user_id uid) (users db) with
  | None => ViewStartFirst
  | Some user_data =>
      match bet_of user_data with
      | None => ViewNoBetPlaced
      | Some user_bet =>
          match status user_data with
          | Some approved => ViewApproved user_bet
          | Some disapproved => ViewDisapproved
          | Some waiting => ViewWaiting user_bet
          | None => ViewUnknownStatus
          end
      end
  end.

(** [/results]. *)
Definition view_results (db : DB) : View :=
  if (heads_wins (results db) =? 0) && (tails_wins (results db) =? 0)
  then ViewResultsNotDeclared (result_announcement_time (settings db))
  else ViewResultsDeclared (heads_wins (results db)) (tails_wins (results db))
         (result_announcement_time (settings db)).

(** [/participants]. *)
Definition view_participants (caller : Z) (db : DB) : View :=
  if negb (caller =? ADMIN_ID) then ViewNotAuthorized
  else
    match find_all q_participant (users db) with
    | [] => ViewNoParticipants
    | participants => ViewParticipants (entries_of participants)
    end.

(** [/nextbet]: an empty time counts as none. *)
Definition next_bet (db : DB) : View :=
  match next_betting_time (settings db) with
  | Some t => if String.eqb t "" then ViewNoRound else ViewNextRound t
  | None => ViewNoRound
  end.

(** [/slots]. *)
Definition view_slots (db : DB) : View :=
  ViewSlots (available_slots (settings db)) (total_slots (settings db)).

(** [/winners]: each winner is looked up again in the users. *)
Definition view_winners (caller : Z) (db : DB) : View :=
  if negb (caller =? ADMIN_ID) then ViewNotAuthorized
  else
    match winners db with
    | [] => ViewNoWinners
    | ws =>
        ViewWinners
          (flat_map (fun uid =>
                       match find_one (q_user_id uid) (users db) with
                       | Some user_data =>
                           [mkEntry uid (name user_data) (bet_of user_data)
                              (status user_data)]
                       | None => []
                       end) ws)
    end.

(** [/broadcast <message>]. *)
Definition broadcast (delivers : Z -> bool) (caller : Z) (args : list string)
  (db : DB) : BroadcastResult :=
  if negb (caller =? ADMIN_ID) then BroadcastNotAuthorized
  else
    match args with
    | [] => BroadcastUsage
    | _ :: _ =>
        let message := join_args args in
        let users_ := find_all (fun _ => true) (users db) in
        let total_users := List.length users_ in
        let '(success_count, fail_count, skipped_count) :=
          broadcast_loop delivers users_ 0 0 0 in
        BroadcastSummary message total_users success_count fail_count
          skipped_count
    end.

(** A round under review: the seeded record without id, user 7 with a bet
    on heads, waiting, whose three attempts are used up, and user 8 with a
    bet on tails, approved. *)
Definition review_db : DB :=
  mkDB [ mkUser None "" None None 0;
         mkUser (Some 7) "A" (Some heads) (Some waiting) 3;
         mkUser (Some 8) "B" (Some tails) (Some approved) 0 ]
       (mkSettings None true 2 1 None)
       (mkResults 0 0)
       [].

(** ** Further predicates *)

(** The ['user_id'] values present in the users, in order. *)
Definition registered_ids (db : DB) : list Z :=
  flat_map (fun u => match user_id u with
                     | Some i => [i]
                     | None => []
                     end) (users db).

(** The identity part of the user documents: ['user_id'] and name. *)
Definition identities (db : DB) : list (option Z * string) :=
  map (fun u => (user_id u, name u)) (users db).

(** An update that is an operator command sent by [ADMIN_ID]. *)
Definition issued_by_operator (ev : Event) : bool :=
  match ev with
  | EvStart _ _ | EvBet _ | EvBetChoice _ _ | EvPhoto _ => false
  | EvApprove caller _ | EvDisapprove caller _ | EvDeclare caller _
  | EvReset caller | EvSchedule caller _ | EvFixSlots caller _
  | EvSetAnnouncement caller _ | EvClose caller | EvOpen caller =>
      caller =? ADMIN_ID
  end.

(** Both result counters are at least 0. *)
Definition results_nonneg (db : DB) : Prop :=
  0 <= heads_wins (results db) /\ 0 <= tails_wins (results db).

(** ** Collections: basic facts *)

Lemma find_one_Some (q : User -> bool) (us : list User) (u : User) :
  find_one q us = Some u -> In u us /\ q u = true.
Proof. apply find_some. Qed.

Lemma find_one_update_one (q : User -> bool) (upd : User -> User)
  (us : list User) (u : User) :
  (forall x, q (upd x) = q x) ->
  find_one q us = Some u ->
  find_one q (update_one q upd us) = Some (upd u).
Proof.
  intros Hq. induction us as [|x rest IH]; simpl; intro H.
  - discriminate.
  - destruct (q x) eqn:Ex.
    + injection H as ->. simpl. now rewrite Hq, Ex.
    + simpl. rewrite Ex. auto.
Qed.

Lemma update_one_Forall (P : User -> Prop) (q : User -> bool)
  (upd : User -> User) (us : list User) :
  (forall u, q u = true -> P u -> P (upd u)) ->
  Forall P us -> Forall P (update_one q upd us).
Proof.
  induction us as [|x rest IH]; simpl; intros Hupd HF.
  - constructor.
  - inversion HF as [|? ? Hx Hrest]; subst.
    destruct (q x) eqn:Ex; constructor; auto.
Qed.

(** When the first match is known, only what the update does to it
    matters. *)
Lemma update_one_Forall_found (P : User -> Prop) (q : User -> bool)
  (upd : User -> User) (us : list User) (u : User) :
  find_one q us = Some u ->
  (P u -> P (upd u)) ->
  Forall P us -> Forall P (update_one q upd us).
Proof.
  induction us as [|x rest IH]; simpl; intros Hfind Hupd HF.
  - constructor.
  - inversion HF as [|? ? Hx Hrest]; subst.
    destruct (q x) eqn:Ex.
    + injection Hfind as ->. constructor; auto.
    + constructor; auto.
Qed.

Lemma update_many_Forall (P : User -> Prop) (q : User -> bool)
  (upd : User -> User) (us : list User) :
  (forall u, q u = true -> P (upd u)) ->
  Forall P us -> Forall P (update_many q upd us).
Proof.
  intros Hupd HF. unfold update_many. apply Forall_map.
  eapply Forall_impl; [|exact HF]. intros u Hu. simpl.
  destruct (q u) eqn:E; auto.
Qed.

(** An invariant of every step is an invariant of every run. *)
Lemma run_invariant (P : DB -> Prop) :
  (forall ev db, P db -> P (step ev db)) ->
  forall evs db, P db -> P (run evs db).
Proof.
  intros Hstep evs. induction evs as [|ev evs IH]; intros db H; simpl.
  - exact H.
  - apply IH, Hstep, H.
Qed.

(** ** Slots *)

Ltac handler_cases :=
  repeat match goal with
         | |- context [if ?b then _ else _] => destruct b
         | |- context [match ?x with _ => _ end] => destruct x
         end.

Ltac unfold_handlers :=
  unfold start, bet, handle_bet_choice, handle_payment_screenshot,
    approve_user, disapprove_user, declare_result, reset, schedule_betting,
    fix_slots, set_announcement_time, close_betting, open_betting.

(** What an [/approve] by the operator on an existing user does. *)
Lemma approve_user_found (a : string) (rest : list string) (uid : Z)
  (u : User) (db : DB) :
  py_int a = Some uid ->
  find_one (q_user_id uid) (users db) = Some u ->
  approve_user ADMIN_ID (a :: rest) db
  = (approved_reply uid,
     with_settings dec_available_slots
       (with_users (update_one (q_user_id uid) (set_status_attempts0 approved))
          db)).
Proof.
  intros Hint Hfind. unfold approve_user.
  rewrite Z.eqb_refl. simpl. now rewrite Hint, Hfind.
Qed.

(** Every step keeps [available_slots] at or below [total_slots]. *)
Lemma step_slots_le_total (ev : Event) (db : DB) :
  slots_le_total db -> slots_le_total (step ev db).
Proof.
  unfold slots_le_total, step. intro H.
  destruct ev; simpl; unfold_handlers; handler_cases; simpl; lia.
Qed.

(** The user record after an [/approve] that found it. *)
Lemma approve_user_record (a : string) (rest : list string) (uid : Z)
  (u : User) (db : DB) :
  py_int a = Some uid ->
  find_one (q_user_id uid) (users db) = Some u ->
  find_one (q_user_id uid) (users (snd (approve_user ADMIN_ID (a :: rest) db)))
  = Some (mkUser (user_id u) (name u) (bet_of u) (Some approved) 0).
Proof.
  intros Hint Hfind. rewrite (approve_user_found a rest uid u db Hint Hfind).
  simpl. apply (find_one_update_one _ (set_status_attempts0 approved)).
  - reflexivity.
  - exact Hfind.
Qed.

(** C1 (amended): along every sequence of operations [available_slots] stays
    at or below [total_slots]; an [/approve] that goes through lowers
    [available_slots] by exactly 1 and leaves [total_slots], and an
    [/approve] that does not go through changes nothing.  No lower bound is
    stated: approval does not look at [available_slots]. *)
Theorem available_slots_le_total_slots (evs : list Event) (db : DB) :
  slots_le_total db ->
  slots_le_total (run evs db) /\
  (forall caller args db',
      (exists uid, fst (approve_user caller args db') = approved_reply uid) ->
      available_slots (settings (snd (approve_user caller args db')))
      = available_slots (settings db') - 1 /\
      total_slots (settings (snd (approve_user caller args db')))
      = total_slots (settings db')) /\
  (forall caller args db',
      (forall uid, fst (approve_user caller args db') <> approved_reply uid) ->
      snd (approve_user caller args db') = db').
Proof.
  intro H. split; [|split].
  - revert evs db H. apply run_invariant. intros ev d. apply step_slots_le_total.
  - intros caller args db' [uid Hok]. revert Hok. unfold approve_user.
    handler_cases; simpl; intro Hok; try discriminate Hok.
    split; [lia | reflexivity].
  - intros caller args db' Hno. revert Hno. unfold approve_user.
    handler_cases; simpl; intro Hno; try reflexivity.
    exfalso. eapply Hno. reflexivity.
Qed.

(** C2 (amended): [/approve] by the operator on an existing user goes
    through whatever the user's status.  On a user whose status is already
    Approved it is accepted again: the status stays Approved, the attempts
    are 0 and [available_slots] is lowered by 1 once more.  On a user whose
    status is not Approved it sets the status to Approved, the attempts to 0
    and lowers [available_slots] by 1. *)
Theorem approve_user_effect (a : string) (rest : list string) (uid : Z)
  (u : User) (db : DB) :
  py_int a = Some uid ->
  find_one (q_user_id uid) (users db) = Some u ->
  let r := approve_user ADMIN_ID (a :: rest) db in
  (status u = Some approved ->
     fst r = approved_reply uid /\
     find_one (q_user_id uid) (users (snd r))
     = Some (mkUser (user_id u) (name u) (bet_of u) (Some approved) 0) /\
     available_slots (settings (snd r)) = available_slots (settings db) - 1) /\
  (status u <> Some approved ->
     fst r = approved_reply uid /\
     (exists u', find_one (q_user_id uid) (users (snd r)) = Some u' /\
                 status u' = Some approved /\ payment_attempts u' = 0) /\
     available_slots (settings (snd r)) = available_slots (settings db) - 1).
Proof.
  intros Hint Hfind r.
  assert (Hrec := approve_user_record a rest uid u db Hint Hfind).
  assert (Hr : r = (approved_reply uid,
                    with_settings dec_available_slots
                      (with_users (update_one (q_user_id uid)
                                     (set_status_attempts0 approved)) db)))
    by (apply (approve_user_found a rest uid u db Hint Hfind)).
  fold r in Hrec.
  split; intros _.
  - split; [now rewrite Hr|]. split; [exact Hrec|].
    rewrite Hr. simpl. lia.
  - split; [now rewrite Hr|]. split.
    + eexists. split; [exact Hrec|]. split; reflexivity.
    + rewrite Hr. simpl. lia.
Qed.

(** C9: an [/approve] goes through exactly when the caller is the operator
    and the argument names an existing user record.  For such a user,
    whatever its bet, status and attempts (a user who never bet or paid
    included), the status becomes Approved, the attempts 0, the bet, name
    and id are kept, and [available_slots] is lowered by 1. *)
Theorem approve_user_needs_operator_and_record (caller : Z)
  (args : list string) (db : DB) :
  ((exists uid, fst (approve_user caller args db) = approved_reply uid) <->
   (caller = ADMIN_ID /\
    exists a rest uid u,
      args = a :: rest /\ py_int a = Some uid /\
      find_one (q_user_id uid) (users db) = Some u)) /\
  (forall a rest uid u,
      caller = ADMIN_ID -> args = a :: rest -> py_int a = Some uid ->
      find_one (q_user_id uid) (users db) = Some u ->
      find_one (q_user_id uid) (users (snd (approve_user caller args db)))
      = Some (mkUser (user_id u) (name u) (bet_of u) (Some approved) 0) /\
      available_slots (settings (snd (approve_user caller args db)))
      = available_slots (settings db) - 1).
Proof.
  split; [split|].
  - intros [uid Hok]. revert Hok. unfold approve_user.
    destruct (caller =? ADMIN_ID) eqn:Ec; simpl; [|discriminate].
    apply Z.eqb_eq in Ec.
    destruct args as [|a rest]; [discriminate|].
    destruct (py_int a) as [uid'|] eqn:Ea; [|discriminate].
    destruct (find_one (q_user_id uid') (users db)) as [u|] eqn:Ef;
      [|discriminate].
    intros _. split; [exact Ec|]. now exists a, rest, uid', u.
  - intros [-> (a & rest & uid & u & -> & Ha & Hf)].
    exists uid. now rewrite (approve_user_found a rest uid u db Ha Hf).
  - intros a rest uid u -> -> Ha Hf. split.
    + apply approve_user_record; assumption.
    + rewrite (approve_user_found a rest uid u db Ha Hf). simpl. lia.
Qed.

(** ** Declaring a result *)

Lemma Side_eqb_eq (a b : Side) : Side_eqb a b = true <-> a = b.
Proof. destruct a, b; simpl; split; intro H; congruence. Qed.

Lemma Status_eqb_eq (a b : Status) : Status_eqb a b = true <-> a = b.
Proof. destruct a, b; simpl; split; intro H; congruence. Qed.

Lemma q_bet_approved_true (result : Side) (u : User) :
  q_bet_approved result u = true <->
  bet_of u = Some result /\ status u = Some approved.
Proof.
  unfold q_bet_approved.
  destruct (bet_of u) as [b|], (status u) as [s|]; simpl.
  - rewrite andb_true_iff, Side_eqb_eq, Status_eqb_eq.
    split; intros [H1 H2]; split; congruence.
  - split; [discriminate | intros [_ H]; discriminate].
  - split; [discriminate | intros [H _]; discriminate].
  - split; [discriminate | intros [H _]; discriminate].
Qed.

(** Who is in the list [declare_result] computes. *)
Lemma In_identify_winners (result : Side) (us : list User) (uid : Z) :
  In uid (identify_winners result us) <->
  exists u, In u us /\ user_id u = Some uid /\
            bet_of u = Some result /\ status u = Some approved.
Proof.
  unfold identify_winners, find_all. rewrite in_flat_map. split.
  - intros [u [Hu Hin]]. apply filter_In in Hu as [Hu Hq].
    apply q_bet_approved_true in Hq as [Hb Hs].
    exists u. destruct (user_id u) as [i|]; simpl in Hin.
    + destruct Hin as [->|[]]. auto.
    + destruct Hin.
  - intros [u (Hu & Hid & Hb & Hs)]. exists u. split.
    + apply filter_In. split; [exact Hu|].
      apply q_bet_approved_true. auto.
    + rewrite Hid. simpl. auto.
Qed.

(** What a valid [/declare] by the operator does. *)
Lemma declare_result_valid (a : string) (rest : list string) (result : Side)
  (db : DB) :
  side_of_string (lower a) = Some result ->
  declare_result ADMIN_ID (a :: rest) db
  = (reply_text (MsgResultDeclared result)
       :: notify_all (MsgResultsOut result) (users db),
     mkDB (users db)
          (set_available_slots (total_slots (settings db)) (settings db))
          (inc_result result (results db))
          (identify_winners result (users db))).
Proof.
  intro H. unfold declare_result. rewrite Z.eqb_refl. simpl. now rewrite H.
Qed.

(** Only [/declare] and [/reset] write the [winners] document. *)
Lemma step_winners (ev : Event) (db : DB) :
  writes_winners ev = false -> winners (step ev db) = winners db.
Proof.
  unfold step. destruct ev; simpl; intro H; try discriminate H;
    unfold_handlers; handler_cases; reflexivity.
Qed.

Lemma run_winners (evs : list Event) :
  Forall (fun ev => writes_winners ev = false) evs ->
  forall db, winners (run evs db) = winners db.
Proof.
  induction 1 as [|ev evs Hev _ IH]; intro db; simpl.
  - reflexivity.
  - rewrite IH. now apply step_winners.
Qed.

(** C3: after [/declare <side>] by the operator, with the side one of heads
    and tails, the winners are exactly the users whose bet is that side and
    whose status is Approved in the database of the call, whatever the list
    held before; no later update other than another [/declare] or a [/reset]
    alters them, a later bet in particular. *)
Theorem declare_result_winners (a : string) (rest : list string)
  (result : Side) (db : DB) :
  side_of_string (lower a) = Some result ->
  let db' := snd (declare_result ADMIN_ID (a :: rest) db) in
  winners db' = identify_winners result (users db) /\
  (forall uid,
      In uid (winners db') <->
      exists u, In u (users db) /\ user_id u = Some uid /\
                bet_of u = Some result /\ status u = Some approved) /\
  (forall evs,
      Forall (fun ev => writes_winners ev = false) evs ->
      winners (run evs db') = winners db') /\
  (forall uid data,
      winners (snd (handle_bet_choice uid data db')) = winners db').
Proof.
  intros H db'. subst db'. rewrite (declare_result_valid a rest result db H).
  simpl. split; [reflexivity|]. split; [|split].
  - intro uid. apply In_identify_winners.
  - intros evs Hevs. now rewrite run_winners.
  - intros uid data.
    apply (step_winners (EvBetChoice uid data)). reflexivity.
Qed.

(** C7: [/declare <side>] by the operator sets [available_slots] to
    [total_slots], leaves [betting_open] and the rest of the settings, leaves
    every user record as it is, and adds 1 to the counter of the declared
    side only. *)
Theorem declare_result_frame (a : string) (rest : list string)
  (result : Side) (db : DB) :
  side_of_string (lower a) = Some result ->
  let db' := snd (declare_result ADMIN_ID (a :: rest) db) in
  available_slots (settings db') = total_slots (settings db) /\
  total_slots (settings db') = total_slots (settings db) /\
  betting_open (settings db') = betting_open (settings db) /\
  next_betting_time (settings db') = next_betting_time (settings db) /\
  result_announcement_time (settings db')
  = result_announcement_time (settings db) /\
  users db' = users db /\
  (result = heads ->
     heads_wins (results db') = heads_wins (results db) + 1 /\
     tails_wins (results db') = tails_wins (results db)) /\
  (result = tails ->
     tails_wins (results db') = tails_wins (results db) + 1 /\
     heads_wins (results db') = heads_wins (results db)).
Proof.
  intros H db'. subst db'. rewrite (declare_result_valid a rest result db H).
  simpl. repeat split; try reflexivity; subst result; reflexivity.
Qed.

(** ** Resetting the round *)

(** C8: [/reset] by the operator clears bet, status and attempts of exactly
    the users whose bet is not None and leaves the other records as they
    are; it keeps every record, in place, with its id and name; it empties
    the winners, zeroes both counters, sets [available_slots] to
    [total_slots], clears both times and leaves [betting_open]. *)
Theorem reset_effect (db : DB) :
  let db' := snd (reset ADMIN_ID db) in
  List.length (users db') = List.length (users db) /\
  (forall i u,
      nth_error (users db) i = Some u ->
      exists u',
        nth_error (users db') i = Some u' /\
        user_id u' = user_id u /\ name u' = name u /\
        (bet_of u <> None ->
           bet_of u' = None /\ status u' = None /\ payment_attempts u' = 0) /\
        (bet_of u = None -> u' = u)) /\
  winners db' = [] /\
  heads_wins (results db') = 0 /\ tails_wins (results db') = 0 /\
  available_slots (settings db') = total_slots (settings db) /\
  total_slots (settings db') = total_slots (settings db) /\
  next_betting_time (settings db') = None /\
  result_announcement_time (settings db') = None /\
  betting_open (settings db') = betting_open (settings db).
Proof.
  unfold reset. rewrite Z.eqb_refl. simpl.
  split; [apply length_map|]. split; [|repeat split].
  intros i u Hu. unfold update_many. rewrite nth_error_map, Hu. simpl.
  eexists. split; [reflexivity|]. unfold q_bet_ne_None.
  destruct (bet_of u) as [b|] eqn:Eb; simpl; repeat split; congruence.
Qed.

(** ** Placing a bet *)


(** [/bet] never writes. *)
Lemma bet_db (db : DB) : snd (bet db) = db.
Proof. unfold bet. handler_cases; reflexivity. Qed.


(** ** Payment submissions *)

(** What [handle_payment_screenshot] does with a submission it accepts. *)
Lemma handle_payment_screenshot_accepted (uid : Z) (u : User) (b : Side)
  (db : DB) :
  find_one (q_user_id uid) (users db) = Some u ->
  bet_of u = Some b ->
  payment_attempts u < 3 ->
  handle_payment_screenshot uid db
  = ((if payment_attempts u + 1 =? 3 then [reply_text MsgFinalAttempt] else [])
     ++ [ forward_message ADMIN_ID;
          send_message ADMIN_ID
            (MsgNewPayment uid (name u) (bet_of u) (payment_attempts u + 1));
          reply_text MsgScreenshotSent ],
     mkDB (update_one (q_user_id uid) inc_payment_attempts
             (update_one (q_user_id uid) (set_status (Some waiting)) (users db)))
          (settings db) (results db) (winners db)).
Proof.
  intros Hf Hb Hlt. unfold handle_payment_screenshot. rewrite Hf, Hb.
  assert (E : (payment_attempts u >=? 3) = false) by lia.
  now rewrite E.
Qed.

(** The user record after the two writes. *)
Lemma payment_writes_record (uid : Z) (u : User) (us : list User) :
  find_one (q_user_id uid) us = Some u ->
  find_one (q_user_id uid)
    (update_one (q_user_id uid) inc_payment_attempts
       (update_one (q_user_id uid) (set_status (Some waiting)) us))
  = Some (mkUser (user_id u) (name u) (bet_of u) (Some waiting)
            (payment_attempts u + 1)).
Proof.
  intro Hf.
  apply (find_one_update_one _ (set_status (Some waiting))) in Hf;
    [|reflexivity].
  apply (find_one_update_one _ inc_payment_attempts) in Hf; [|reflexivity].
  exact Hf.
Qed.

(** The submission refused for its attempts. *)
Lemma handle_payment_screenshot_max (uid : Z) (u : User) (db : DB) :
  find_one (q_user_id uid) (users db) = Some u ->
  bet_of u <> None ->
  3 <= payment_attempts u ->
  handle_payment_screenshot uid db = ([reply_text MsgMaxAttempts], db).
Proof.
  intros Hf Hb Hge. unfold handle_payment_screenshot. rewrite Hf.
  destruct (bet_of u); [|congruence].
  assert (E : (payment_attempts u >=? 3) = true) by lia.
  now rewrite E.
Qed.

(** The user records after each step, handler by handler. *)
Lemma step_users_Forall (P : User -> Prop) :
  (forall uid nm, P (mkUser (Some uid) nm None None 0)) ->
  (forall u c, bet_of u = None -> P u -> P (set_bet (Some c) u)) ->
  (forall u b, bet_of u = Some b -> payment_attempts u < 3 -> P u ->
               P (set_status (Some waiting) u) /\
               P (inc_payment_attempts (set_status (Some waiting) u))) ->
  (forall u s, P (set_status_attempts0 s u)) ->
  (forall u, P (clear_round u)) ->
  forall ev db, Forall P (users db) -> Forall P (users (step ev db)).
Proof.
  intros Hnew Hbet Hpay Hset Hclear ev db HF. unfold step.
  destruct ev as [uid nm| |uid data|uid|caller args|caller args|caller args
                 |caller|caller args|caller args|caller args|caller|caller];
    simpl.
  - unfold start. destruct (find_one _ _); simpl; [exact HF|].
    unfold insert_one. apply Forall_app. split; [exact HF|].
    constructor; [apply Hnew | constructor].
  - now rewrite bet_db.
  - unfold handle_bet_choice.
    destruct (find_one _ _) as [u|] eqn:Ef; simpl; [|exact HF].
    destruct (bet_of u) eqn:Eb; simpl; [exact HF|].
    destruct (side_of_string data) as [c|]; simpl; [|exact HF].
    eapply update_one_Forall_found; eauto.
  - unfold handle_payment_screenshot.
    destruct (find_one _ _) as [u|] eqn:Ef; simpl; [|exact HF].
    destruct (bet_of u) as [b|] eqn:Eb; simpl; [|exact HF].
    destruct (payment_attempts u >=? 3) eqn:Ea; simpl; [exact HF|].
    assert (Hlt : payment_attempts u < 3) by lia.
    assert (Hu : P u)
      by (eapply Forall_forall; [exact HF | eapply find_one_Some; eauto]).
    destruct (Hpay u b Eb Hlt Hu) as [H1 H2].
    eapply update_one_Forall_found.
    + apply (find_one_update_one _ (set_status (Some waiting)));
        [reflexivity | exact Ef].
    + intros _. exact H2.
    + eapply update_one_Forall_found; eauto.
  - unfold approve_user. handler_cases; simpl; try exact HF.
    apply update_one_Forall; auto.
  - unfold disapprove_user. handler_cases; simpl; try exact HF.
    apply update_one_Forall; auto.
  - unfold declare_result. handler_cases; simpl; exact HF.
  - unfold reset. handler_cases; simpl; try exact HF.
    apply update_many_Forall; auto.
  - unfold schedule_betting. handler_cases; simpl; exact HF.
  - unfold fix_slots. handler_cases; simpl; exact HF.
  - unfold set_announcement_time. handler_cases; simpl; exact HF.
  - unfold close_betting. handler_cases; simpl; exact HF.
  - unfold open_betting. handler_cases; simpl; exact HF.
Qed.

Lemma step_attempts_le_3 (ev : Event) (db : DB) :
  attempts_le_3 db -> attempts_le_3 (step ev db).
Proof.
  unfold attempts_le_3. apply step_users_Forall; simpl; intros; lia.
Qed.

Lemma step_no_bet_no_attempt (ev : Event) (db : DB) :
  no_bet_no_attempt db -> no_bet_no_attempt (step ev db).
Proof.
  unfold no_bet_no_attempt. apply step_users_Forall; simpl; intros;
    try split; intros; congruence.
Qed.

(** C5: along every sequence of operations no user's [payment_attempts]
    exceeds 3; a submission by a registered user with a bet whose attempts
    are 3 (or more) gets the maximum-attempts reply (AttemptsExceeded) and
    the database, the user's record included, is left as it is; along every
    sequence of operations from a database where users without a bet have no
    attempt, every user with 3 attempts has a bet, so the submission is
    refused for its attempts. *)
Theorem payment_attempts_at_most_3 :
  (forall evs db, attempts_le_3 db -> attempts_le_3 (run evs db)) /\
  (forall uid u db,
      find_one (q_user_id uid) (users db) = Some u ->
      bet_of u <> None ->
      3 <= payment_attempts u ->
      handle_payment_screenshot uid db = ([reply_text MsgMaxAttempts], db)) /\
  (forall evs db,
      no_bet_no_attempt db ->
      forall uid u,
        find_one (q_user_id uid) (users (run evs db)) = Some u ->
        payment_attempts u = 3 ->
        handle_payment_screenshot uid (run evs db)
        = ([reply_text MsgMaxAttempts], run evs db)).
Proof.
  split; [|split].
  - apply run_invariant. intros ev db. apply step_attempts_le_3.
  - intros uid u db. apply handle_payment_screenshot_max.
  - intros evs db H uid u Hf H3.
    assert (Hinv : no_bet_no_attempt (run evs db)).
    { apply run_invariant; [|exact H]. intros ev d.
      apply step_no_bet_no_attempt. }
    apply (handle_payment_screenshot_max uid u); [exact Hf| |lia].
    intro Hb. unfold no_bet_no_attempt in Hinv.
    rewrite Forall_forall in Hinv.
    apply find_one_Some in Hf as [Hin _].
    specialize (Hinv u Hin Hb). lia.
Qed.

(** C6 (amended): a payment submission by a registered user with a bet and
    fewer than 3 attempts sets the status to Waiting and adds exactly 1 to
    [payment_attempts], leaving the rest of the record and the rest of the
    database; the two are written one after the other, the status first:
    after the first write alone the status is Waiting and the attempts are
    not yet raised.  When the attempt recorded is the 3rd the caller is told
    it is the final one, and the submission is forwarded to the operator all
    the same. *)
Theorem payment_accepted_effect (uid : Z) (u : User) (b : Side) (db : DB) :
  find_one (q_user_id uid) (users db) = Some u ->
  bet_of u = Some b ->
  payment_attempts u < 3 ->
  let r := handle_payment_screenshot uid db in
  find_one (q_user_id uid) (users (snd r))
  = Some (mkUser (user_id u) (name u) (bet_of u) (Some waiting)
            (payment_attempts u + 1)) /\
  settings (snd r) = settings db /\
  results (snd r) = results db /\
  winners (snd r) = winners db /\
  snd r = payment_interrupted 2 uid db /\
  find_one (q_user_id uid) (users (payment_interrupted 1 uid db))
  = Some (mkUser (user_id u) (name u) (bet_of u) (Some waiting)
            (payment_attempts u)) /\
  (payment_attempts u + 1 = 3 ->
     fst r = [ reply_text MsgFinalAttempt;
               forward_message ADMIN_ID;
               send_message ADMIN_ID (MsgNewPayment uid (name u) (bet_of u) 3);
               reply_text MsgScreenshotSent ]) /\
  (payment_attempts u + 1 <> 3 ->
     fst r = [ forward_message ADMIN_ID;
               send_message ADMIN_ID
                 (MsgNewPayment uid (name u) (bet_of u) (payment_attempts u + 1));
               reply_text MsgScreenshotSent ]).
Proof.
  intros Hf Hb Hlt r. subst r.
  rewrite (handle_payment_screenshot_accepted uid u b db Hf Hb Hlt). simpl.
  split; [now apply payment_writes_record|].
  repeat (split; [reflexivity|]).
  split; [|split].
  - apply (find_one_update_one _ (set_status (Some waiting)));
      [reflexivity | exact Hf].
  - intro H3. rewrite H3. reflexivity.
  - intro H3. apply Z.eqb_neq in H3. now rewrite H3.
Qed.

(** C10: once a user with a bet has been approved, a payment submission by
    that user is accepted again, the approval having set the attempts to 0:
    it is forwarded to the operator, the status goes back from Approved to
    Waiting with 1 attempt, and the settings are not written, so
    [available_slots] stays one below its value before the approval. *)
Theorem approved_user_pays_again (a : string) (rest : list string) (uid : Z)
  (u : User) (b : Side) (db : DB) :
  py_int a = Some uid ->
  find_one (q_user_id uid) (users db) = Some u ->
  bet_of u = Some b ->
  let db1 := snd (approve_user ADMIN_ID (a :: rest) db) in
  let r := handle_payment_screenshot uid db1 in
  (exists u1, find_one (q_user_id uid) (users db1) = Some u1 /\
              status u1 = Some approved /\ payment_attempts u1 = 0) /\
  available_slots (settings db1) = available_slots (settings db) - 1 /\
  fst r = [ forward_message ADMIN_ID;
            send_message ADMIN_ID (MsgNewPayment uid (name u) (Some b) 1);
            reply_text MsgScreenshotSent ] /\
  find_one (q_user_id uid) (users (snd r))
  = Some (mkUser (user_id u) (name u) (Some b) (Some waiting) 1) /\
  settings (snd r) = settings db1 /\
  available_slots (settings (snd r)) = available_slots (settings db) - 1.
Proof.
  intros Ha Hf Hb db1 r.
  assert (Hrec : find_one (q_user_id uid) (users db1)
                 = Some (mkUser (user_id u) (name u) (bet_of u)
                           (Some approved) 0))
    by (apply approve_user_record; assumption).
  assert (Hslots : available_slots (settings db1)
                   = available_slots (settings db) - 1).
  { subst db1. rewrite (approve_user_found a rest uid u db Ha Hf). simpl. lia. }
  assert (Hr := handle_payment_screenshot_accepted uid _ b db1 Hrec Hb).
  simpl in Hr. specialize (Hr ltac:(lia)). fold r in Hr.
  split; [eexists; split; [exact Hrec|split; reflexivity]|].
  split; [exact Hslots|].
  rewrite Hr. simpl. rewrite Hb. split; [reflexivity|]. split.
  - rewrite (payment_writes_record uid _ _ Hrec). simpl. now rewrite Hb.
  - split; [reflexivity | exact Hslots].
Qed.

(** ** Further properties of the handlers *)

(** *** Collections *)

Lemma find_one_app_None (q : User -> bool) (us : list User) (x : User) :
  find_one q us = None -> q x = true -> find_one q (us ++ [x]) = Some x.
Proof.
  induction us as [|y rest IH]; simpl; intros Hn Hx.
  - now rewrite Hx.
  - destruct (q y); [discriminate|]. auto.
Qed.

Lemma find_one_app_Some (q : User -> bool) (us extra : list User) (u : User) :
  find_one q us = Some u -> find_one q (us ++ extra) = Some u.
Proof.
  induction us as [|y rest IH]; simpl; intro H.
  - discriminate.
  - destruct (q y); auto.
Qed.

Lemma update_one_map (A : Type) (f : User -> A) (q : User -> bool)
  (upd : User -> User) (us : list User) :
  (forall x, f (upd x) = f x) ->
  map f (update_one q upd us) = map f us.
Proof.
  intro Hf. induction us as [|y rest IH]; simpl; [reflexivity|].
  destruct (q y); simpl; [now rewrite Hf | now rewrite IH].
Qed.

Lemma update_many_map (A : Type) (f : User -> A) (q : User -> bool)
  (upd : User -> User) (us : list User) :
  (forall x, f (upd x) = f x) ->
  map f (update_many q upd us) = map f us.
Proof.
  intro Hf. unfold update_many. rewrite map_map. apply map_ext.
  intro x. destruct (q x); [apply Hf | reflexivity].
Qed.

(** [update_one] on the query for [uid] leaves the documents of every other
    id where they are. *)
Lemma update_one_other (uid : Z) (upd : User -> User) (us : list User)
  (i : nat) (u : User) :
  nth_error us i = Some u ->
  user_id u <> Some uid ->
  nth_error (update_one (q_user_id uid) upd us) i = Some u.
Proof.
  revert i. induction us as [|y rest IH]; intros i Hi Hne.
  - destruct i; discriminate.
  - simpl. destruct (q_user_id uid y) eqn:Ey.
    + destruct i as [|i]; simpl in *; [|exact Hi].
      injection Hi as ->. exfalso. apply Hne. unfold q_user_id in Ey.
      destruct (user_id u) as [j|]; [|discriminate].
      apply Z.eqb_eq in Ey. now subst.
    + destruct i as [|i]; simpl in *; [exact Hi|]. now apply IH.
Qed.

Lemma registered_ids_identities (db : DB) :
  registered_ids db
  = flat_map (fun p : option Z * string =>
                match fst p with
                | Some i => [i]
                | None => []
                end) (identities db).
Proof.
  unfold registered_ids, identities.
  induction (users db) as [|u rest IH]; simpl; [reflexivity|].
  now rewrite IH.
Qed.

Lemma find_one_None_not_registered (uid : Z) (us : list User) :
  find_one (q_user_id uid) us = None ->
  ~ In uid (flat_map (fun u => match user_id u with
                               | Some i => [i]
                               | None => []
                               end) us).
Proof.
  induction us as [|y rest IH]; simpl; intro H; [tauto|].
  unfold q_user_id in H at 1.
  destruct (user_id y) as [j|]; simpl.
  - destruct (j =? uid) eqn:E; [discriminate|].
    apply Z.eqb_neq in E. intros [->|Hin]; [congruence|]. now apply IH.
  - now apply IH.
Qed.

(** *** Disapproval *)

(** What a [/disapprove] by the operator on an existing user does. *)
Lemma disapprove_user_found (a : string) (rest : list string) (uid : Z)
  (u : User) (db : DB) :
  py_int a = Some uid ->
  find_one (q_user_id uid) (users db) = Some u ->
  disapprove_user ADMIN_ID (a :: rest) db
  = ([send_message uid MsgPaymentDisapproved;
      reply_text (MsgUserDisapproved uid)],
     with_users (update_one (q_user_id uid) (set_status_attempts0 disapproved))
       db).
Proof.
  intros Hint Hfind. unfold disapprove_user.
  rewrite Z.eqb_refl. simpl. now rewrite Hint, Hfind.
Qed.

(** X1: [/disapprove] by the operator on an existing user sets the status to
    Disapproved and the attempts to 0, keeps id, name and bet, and writes
    nothing else: settings, counters and winners are as before, so a slot
    taken by an earlier approval is not given back. *)
Theorem disapprove_user_effect (a : string) (rest : list string) (uid : Z)
  (u : User) (db : DB) :
  py_int a = Some uid ->
  find_one (q_user_id uid) (users db) = Some u ->
  let r := disapprove_user ADMIN_ID (a :: rest) db in
  fst r = [send_message uid MsgPaymentDisapproved;
           reply_text (MsgUserDisapproved uid)] /\
  find_one (q_user_id uid) (users (snd r))
  = Some (mkUser (user_id u) (name u) (bet_of u) (Some disapproved) 0) /\
  settings (snd r) = settings db /\
  results (snd r) = results db /\
  winners (snd r) = winners db.
Proof.
  intros Ha Hf r. subst r. rewrite (disapprove_user_found a rest uid u db Ha Hf).
  simpl. split; [reflexivity|]. split; [|auto].
  apply (find_one_update_one _ (set_status_attempts0 disapproved));
    [reflexivity | exact Hf].
Qed.

(** X2: a user with a bet whose attempts are used up is refused, and after
    the operator disapproves that user the next submission is accepted
    again: status Waiting, 1 attempt. *)
Theorem disapproved_user_pays_again (a : string) (rest : list string)
  (uid : Z) (u : User) (b : Side) (db : DB) :
  py_int a = Some uid ->
  find_one (q_user_id uid) (users db) = Some u ->
  bet_of u = Some b ->
  3 <= payment_attempts u ->
  let db1 := snd (disapprove_user ADMIN_ID (a :: rest) db) in
  handle_payment_screenshot uid db = ([reply_text MsgMaxAttempts], db) /\
  fst (handle_payment_screenshot uid db1)
  = [ forward_message ADMIN_ID;
      send_message ADMIN_ID (MsgNewPayment uid (name u) (Some b) 1);
      reply_text MsgScreenshotSent ] /\
  find_one (q_user_id uid) (users (snd (handle_payment_screenshot uid db1)))
  = Some (mkUser (user_id u) (name u) (Some b) (Some waiting) 1).
Proof.
  intros Ha Hf Hb H3 db1. split.
  - apply (handle_payment_screenshot_max uid u); [exact Hf|congruence|exact H3].
  - assert (Hrec : find_one (q_user_id uid) (users db1)
                   = Some (mkUser (user_id u) (name u) (bet_of u)
                             (Some disapproved) 0)).
    { subst db1. rewrite (disapprove_user_found a rest uid u db Ha Hf). simpl.
      apply (find_one_update_one _ (set_status_attempts0 disapproved));
        [reflexivity | exact Hf]. }
    assert (Hr := handle_payment_screenshot_accepted uid _ b db1 Hrec Hb).
    simpl in Hr. specialize (Hr ltac:(lia)). rewrite Hr. simpl.
    rewrite Hb. split; [reflexivity|].
    rewrite (payment_writes_record uid _ _ Hrec). simpl. now rewrite Hb.
Qed.

(** *** Who can change what *)

(** X3: a caller other than [ADMIN_ID] gets the not-authorized reply from
    every operator command, and the database is left as it is; the
    operator-only listings answer the same. *)
Theorem non_operator_refused (caller : Z) (args : list string) (db : DB) :
  caller <> ADMIN_ID ->
  approve_user caller args db = ([reply_text MsgNotAuthorized], db) /\
  disapprove_user caller args db = ([reply_text MsgNotAuthorized], db) /\
  declare_result caller args db = ([reply_text MsgNotAuthorized], db) /\
  reset caller db = ([reply_text MsgNotAuthorized], db) /\
  schedule_betting caller args db = ([reply_text MsgNotAuthorized], db) /\
  fix_slots caller args db = ([reply_text MsgNotAuthorized], db) /\
  set_announcement_time caller args db = ([reply_text MsgNotAuthorized], db) /\
  close_betting caller db = ([reply_text MsgNotAuthorized], db) /\
  open_betting caller db = ([reply_text MsgNotAuthorized], db) /\
  show_all_users caller db = ViewNotAuthorized /\
  view_pending_confirmations caller db = ViewNotAuthorized /\
  view_participants caller db = ViewNotAuthorized /\
  view_winners caller db = ViewNotAuthorized /\
  (forall delivers, broadcast delivers caller args db = BroadcastNotAuthorized).
Proof.
  intro Hne. apply Z.eqb_neq in Hne.
  unfold_handlers.
  unfold show_all_users, view_pending_confirmations, view_participants,
    view_winners, broadcast.
  rewrite Hne. simpl. repeat split.
Qed.

(** X4: an update that is not an operator command sent by [ADMIN_ID] (a
    user's [/start], [/bet], button press or photo, or an operator command
    from anyone else) leaves the settings, the result counters and the
    winners as they are. *)
Theorem only_operator_writes_round (ev : Event) (db : DB) :
  issued_by_operator ev = false ->
  settings (step ev db) = settings db /\
  results (step ev db) = results db /\
  winners (step ev db) = winners db.
Proof.
  unfold step, issued_by_operator.
  destruct ev; simpl; intro H; unfold_handlers; try rewrite H; simpl;
    handler_cases; simpl; auto.
Qed.

(** *** Registration *)

(** X5: [/start] by an id that has no record appends a record with that id
    and name, no bet, no status and 0 attempts, and keeps the other records;
    [/start] by an id that has a record changes nothing, the stored name
    included; so a second [/start] never adds a second record. *)
Theorem start_registers_once (uid : Z) (full_name : string) (db : DB) :
  (find_one (q_user_id uid) (users db) = None ->
     snd (start uid full_name db)
     = with_users
         (fun us => us ++ [mkUser (Some uid) full_name None None 0]) db /\
     find_one (q_user_id uid) (users (snd (start uid full_name db)))
     = Some (mkUser (Some uid) full_name None None 0)) /\
  (forall u, find_one (q_user_id uid) (users db) = Some u ->
     snd (start uid full_name db) = db) /\
  (forall other_name,
     snd (start uid other_name (snd (start uid full_name db)))
     = snd (start uid full_name db)).
Proof.
  assert (Hq : q_user_id uid (mkUser (Some uid) full_name None None 0) = true)
    by (unfold q_user_id; simpl; apply Z.eqb_refl).
  split; [|split].
  - intro Hn. unfold start. rewrite Hn. simpl. split; [reflexivity|].
    unfold insert_one. now apply find_one_app_None.
  - intros u Hu. unfold start. now rewrite Hu.
  - intro other_name.
    destruct (find_one (q_user_id uid) (users db)) as [u|] eqn:Ef.
    + assert (E : snd (start uid full_name db) = db)
        by (unfold start; now rewrite Ef).
      rewrite E. unfold start. now rewrite Ef.
    + assert (E : snd (start uid full_name db)
                  = with_users (insert_one
                                  (mkUser (Some uid) full_name None None 0)) db)
        by (unfold start; now rewrite Ef).
      rewrite E. unfold start. simpl. unfold insert_one.
      now rewrite (find_one_app_None _ _ _ Ef Hq).
Qed.

(** Every step either keeps the identities or is a [/start] that appends
    one whose id was not present. *)
Lemma step_identities (ev : Event) (db : DB) :
  identities (step ev db) = identities db \/
  exists uid nm,
    find_one (q_user_id uid) (users db) = None /\
    identities (step ev db) = identities db ++ [(Some uid, nm)].
Proof.
  unfold step, identities.
  destruct ev as [uid nm| |uid data|uid|caller args|caller args|caller args
                 |caller|caller args|caller args|caller args|caller|caller];
    simpl.
  - unfold start. destruct (find_one _ _) eqn:Ef; simpl; [now left|].
    right. exists uid, nm. split; [exact Ef|].
    unfold insert_one. now rewrite map_app.
  - left. now rewrite bet_db.
  - left. unfold handle_bet_choice. handler_cases; simpl; try reflexivity.
    apply update_one_map; reflexivity.
  - left. unfold handle_payment_screenshot. handler_cases; simpl;
      try reflexivity;
      (rewrite update_one_map by reflexivity; apply update_one_map;
       reflexivity).
  - left. unfold approve_user. handler_cases; simpl; try reflexivity.
    apply update_one_map; reflexivity.
  - left. unfold disapprove_user. handler_cases; simpl; try reflexivity.
    apply update_one_map; reflexivity.
  - left. unfold declare_result. handler_cases; reflexivity.
  - left. unfold reset. handler_cases; simpl; try reflexivity.
    apply update_many_map; reflexivity.
  - left. unfold schedule_betting. handler_cases; reflexivity.
  - left. unfold fix_slots. handler_cases; reflexivity.
  - left. unfold set_announcement_time. handler_cases; reflexivity.
  - left. unfold close_betting. handler_cases; reflexivity.
  - left. unfold open_betting. handler_cases; reflexivity.
Qed.

(** X6: along every sequence of operations no user record is removed or
    reordered and no id or name is rewritten: the ids and names after the
    run are those before it, in place, followed by the newly registered
    ones. *)
Theorem users_never_removed (evs : list Event) (db : DB) :
  exists added, identities (run evs db) = identities db ++ added.
Proof.
  revert db. induction evs as [|ev evs IH]; intro db; simpl.
  - exists []. now rewrite app_nil_r.
  - destruct (IH (step ev db)) as [added Hadd]. fold (run evs (step ev db)) in Hadd.
    destruct (step_identities ev db) as [E|(uid & nm & _ & E)].
    + exists added. unfold run in *. simpl. now rewrite Hadd, E.
    + exists ((Some uid, nm) :: added). unfold run in *. simpl.
      rewrite Hadd, E. now rewrite <- app_assoc.
Qed.

Lemma step_registered_ids_NoDup (ev : Event) (db : DB) :
  NoDup (registered_ids db) -> NoDup (registered_ids (step ev db)).
Proof.
  intro H. rewrite registered_ids_identities in *.
  destruct (step_identities ev db) as [E|(uid & nm & Hn & E)]; rewrite E.
  - exact H.
  - rewrite flat_map_app. simpl.
    apply NoDup_app; [exact H | constructor; [simpl; tauto | constructor] |].
    intros i Hi [<-|[]]. rewrite <- registered_ids_identities in Hi.
    now apply (find_one_None_not_registered uid (users db)).
Qed.

(** X7: when no two records share an id, no sequence of operations makes two
    records share one. *)
Theorem user_ids_stay_unique (evs : list Event) (db : DB) :
  NoDup (registered_ids db) -> NoDup (registered_ids (run evs db)).
Proof.
  revert evs db. apply run_invariant. intros ev db.
  apply step_registered_ids_NoDup.
Qed.

(** X8: a button press, a photo or a [/start] of user [uid], and an
    [/approve] or [/disapprove] naming [uid], leave the record of every
    other id as it is and where it is. *)
Theorem other_records_untouched (uid : Z) (i : nat) (u : User) (db : DB) :
  nth_error (users db) i = Some u ->
  user_id u <> Some uid ->
  (forall data,
      nth_error (users (snd (handle_bet_choice uid data db))) i = Some u) /\
  nth_error (users (snd (handle_payment_screenshot uid db))) i = Some u /\
  (forall full_name,
      nth_error (users (snd (start uid full_name db))) i = Some u) /\
  (forall caller a rest,
      py_int a = Some uid ->
      nth_error (users (snd (approve_user caller (a :: rest) db))) i = Some u /\
      nth_error (users (snd (disapprove_user caller (a :: rest) db))) i = Some u).
Proof.
  intros Hi Hne. split; [|split; [|split]].
  - intro data. unfold handle_bet_choice. handler_cases; simpl; try exact Hi.
    now apply update_one_other.
  - unfold handle_payment_screenshot. handler_cases; simpl; try exact Hi;
      (apply update_one_other; [now apply update_one_other | exact Hne]).
  - intro full_name. unfold start. handler_cases; simpl; try exact Hi.
    unfold insert_one. rewrite nth_error_app1; [exact Hi|].
    apply nth_error_Some. congruence.
  - intros caller a rest Ha. unfold approve_user, disapprove_user. rewrite Ha.
    split; handler_cases; simpl; try exact Hi; now apply update_one_other.
Qed.

(** *** Slots and the round *)

(** X9: [/fixslots <n>] by the operator, for a number the store can hold
    (8 bytes), sets [total_slots] and [available_slots] to [n] whatever
    they were, so it brings [available_slots] back within
    [0 .. total_slots] whenever [n >= 0], and writes nothing else; a number
    beyond 8 bytes ends in the uncaught [OverflowError] and an argument
    that is no integer in the invalid-number reply, and neither writes. *)
Theorem fix_slots_effect (a : string) (rest : list string) (db : DB) :
  (forall n, py_int a = Some n ->
     - 2 ^ 63 <= n < 2 ^ 63 ->
     let db' := snd (fix_slots ADMIN_ID (a :: rest) db) in
     fst (fix_slots ADMIN_ID (a :: rest) db) = [reply_text (MsgTotalSlotsSet n)] /\
     total_slots (settings db') = n /\
     available_slots (settings db') = n /\
     (0 <= n -> slots_invariant db') /\
     betting_open (settings db') = betting_open (settings db) /\
     next_betting_time (settings db') = next_betting_time (settings db) /\
     result_announcement_time (settings db')
     = result_announcement_time (settings db) /\
     users db' = users db /\ results db' = results db /\
     winners db' = winners db) /\
  (forall n, py_int a = Some n ->
     n < - 2 ^ 63 \/ 2 ^ 63 <= n ->
     fix_slots ADMIN_ID (a :: rest) db = ([uncaught_OverflowError], db)) /\
  (py_int a = None ->
     fix_slots ADMIN_ID (a :: rest) db = ([reply_text MsgInvalidNumber], db)).
Proof.
  unfold fix_slots, slots_invariant. rewrite Z.eqb_refl. simpl.
  split; [|split].
  - intros n -> [Hlo Hhi].
    assert (E : fits_int64 n = true).
    { unfold fits_int64. apply andb_true_iff. split;
        [now apply Z.leb_le | now apply Z.ltb_lt]. }
    rewrite E. simpl. repeat split; try reflexivity; lia.
  - intros n -> Hout.
    assert (E : fits_int64 n = false).
    { unfold fits_int64. apply andb_false_iff.
      destruct Hout as [H|H]; [left; now apply Z.leb_gt | right; now apply Z.ltb_ge]. }
    now rewrite E.
  - intros ->. reflexivity.
Qed.

(** X10: after [/close] by the operator [/bet] answers every caller that
    betting is closed; after [/open] it shows the buttons exactly when
    [available_slots > 0] and answers that the slots are full otherwise;
    [/close] and [/open] set [betting_open] to false and to true and write
    nothing else. *)
Theorem close_and_open_betting (db : DB) :
  let dbc := snd (close_betting ADMIN_ID db) in
  let dbo := snd (open_betting ADMIN_ID db) in
  bet dbc = ([reply_text MsgBettingClosed], dbc) /\
  (0 < available_slots (settings db) ->
     bet dbo = ([reply_text MsgPlaceYourBet], dbo)) /\
  (available_slots (settings db) <= 0 ->
     bet dbo = ([reply_text MsgSlotsFull], dbo)) /\
  settings dbc
  = mkSettings (next_betting_time (settings db)) false
      (total_slots (settings db)) (available_slots (settings db))
      (result_announcement_time (settings db)) /\
  settings dbo
  = mkSettings (next_betting_time (settings db)) true
      (total_slots (settings db)) (available_slots (settings db))
      (result_announcement_time (settings db)) /\
  (users dbc = users db /\ results dbc = results db /\
   winners dbc = winners db) /\
  (users dbo = users db /\ results dbo = results db /\
   winners dbo = winners db).
Proof.
  unfold close_betting, open_betting. rewrite Z.eqb_refl. simpl.
  split; [reflexivity|]. split; [|split; [|repeat split]].
  - intro Hlt. unfold bet. simpl. apply Z.leb_gt in Hlt. now rewrite Hlt.
  - intro Hle. unfold bet. simpl. apply Z.leb_le in Hle. now rewrite Hle.
Qed.

(** Looking up an id after [update_many], when the update keeps ids. *)
Lemma find_one_update_many (uid : Z) (q : User -> bool) (upd : User -> User)
  (us : list User) :
  (forall x, user_id (upd x) = user_id x) ->
  find_one (q_user_id uid) (update_many q upd us)
  = option_map (fun u => if q u then upd u else u)
      (find_one (q_user_id uid) us).
Proof.
  intro Hid. induction us as [|y rest IH]; simpl; [reflexivity|].
  assert (E : q_user_id uid (if q y then upd y else y) = q_user_id uid y).
  { destruct (q y); [|reflexivity]. unfold q_user_id. now rewrite Hid. }
  rewrite E. destruct (q_user_id uid y); [reflexivity | exact IH].
Qed.

(** After [/reset] by the operator no record has a bet. *)
Lemma reset_clears_bets (db : DB) :
  Forall (fun x => bet_of x = None) (users (snd (reset ADMIN_ID db))).
Proof.
  unfold reset. rewrite Z.eqb_refl. simpl. unfold update_many.
  apply Forall_map. apply Forall_forall. intros x _. unfold q_bet_ne_None.
  destruct (bet_of x) eqn:E; [reflexivity | exact E].
Qed.

(** No record with a bet, no winner. *)
Lemma identify_winners_no_bets (result : Side) (us : list User) :
  Forall (fun x => bet_of x = None) us -> identify_winners result us = [].
Proof.
  intro H. unfold identify_winners, find_all.
  induction H as [|x rest Hx _ IH]; simpl; [reflexivity|].
  unfold q_bet_approved at 1. rewrite Hx. exact IH.
Qed.

(** X11: after [/reset] by the operator no record has a bet, so the press
    of a button by any registered user is recorded, whatever the user's bet
    and status were before (an approved user included): the record then
    carries the side of the button, with status None and 0 attempts if the
    user had a bet before the reset, and with its former status and
    attempts if not; with betting open and [total_slots > 0], [/bet] shows
    the buttons again. *)
Theorem reset_then_bet_again (uid : Z) (u : User) (choice : Side) (db : DB) :
  find_one (q_user_id uid) (users db) = Some u ->
  let db1 := snd (reset ADMIN_ID db) in
  let r := handle_bet_choice uid (callback_data choice) db1 in
  Forall (fun x => bet_of x = None) (users db1) /\
  fst r = [reply_photo (MsgPaymentQR choice); answer] /\
  (bet_of u <> None ->
     find_one (q_user_id uid) (users (snd r))
     = Some (mkUser (user_id u) (name u) (Some choice) None 0)) /\
  (bet_of u = None ->
     find_one (q_user_id uid) (users (snd r))
     = Some (mkUser (user_id u) (name u) (Some choice) (status u)
               (payment_attempts u))) /\
  (betting_open (settings db) = true ->
   0 < total_slots (settings db) ->
     bet db1 = ([reply_text MsgPlaceYourBet], db1)).
Proof.
  intros Hf db1 r.
  assert (Hall := reset_clears_bets db). fold db1 in Hall.
  assert (Hf1 : find_one (q_user_id uid) (users db1)
                = Some (if q_bet_ne_None u then clear_round u else u)).
  { subst db1. unfold reset. rewrite Z.eqb_refl. simpl.
    rewrite find_one_update_many by reflexivity. now rewrite Hf. }
  set (u1 := if q_bet_ne_None u then clear_round u else u) in *.
  assert (Hb1 : bet_of u1 = None).
  { rewrite Forall_forall in Hall. apply Hall.
    now apply (find_one_Some _ _ _ Hf1). }
  assert (Hc : side_of_string (callback_data choice) = Some choice)
    by (destruct choice; reflexivity).
  assert (Hrec : r = ([reply_photo (MsgPaymentQR choice); answer],
                      with_users
                        (update_one (q_user_id uid) (set_bet (Some choice)))
                        db1)).
  { subst r. unfold handle_bet_choice. now rewrite Hf1, Hb1, Hc. }
  assert (Hfind : find_one (q_user_id uid) (users (snd r))
                  = Some (set_bet (Some choice) u1)).
  { rewrite Hrec. simpl.
    apply (find_one_update_one _ (set_bet (Some choice)));
      [reflexivity | exact Hf1]. }
  split; [exact Hall|]. split; [now rewrite Hrec|].
  split; [|split].
  - intro Hb. rewrite Hfind. subst u1. unfold q_bet_ne_None.
    destruct (bet_of u); [reflexivity | congruence].
  - intro Hb. rewrite Hfind. subst u1. unfold q_bet_ne_None.
    rewrite Hb. reflexivity.
  - intros Hopen Hpos. unfold bet.
    assert (E1 : betting_open (settings db1) = true).
    { subst db1. unfold reset. rewrite Z.eqb_refl. simpl. exact Hopen. }
    assert (E2 : (available_slots (settings db1) <=? 0) = false).
    { subst db1. unfold reset. rewrite Z.eqb_refl. simpl. lia. }
    now rewrite E1, E2.
Qed.

(** X12: a [/declare] that comes right after a [/reset] finds no winner:
    the winners list is empty and [/winners] answers that there are none. *)
Theorem declare_after_reset_no_winners (a : string) (rest : list string)
  (result : Side) (db : DB) :
  side_of_string (lower a) = Some result ->
  let db' := snd (declare_result ADMIN_ID (a :: rest) (snd (reset ADMIN_ID db))) in
  winners db' = [] /\
  view_winners ADMIN_ID db' = ViewNoWinners.
Proof.
  intros H db'.
  assert (E : winners db' = []).
  { subst db'. rewrite (declare_result_valid a rest result _ H). simpl.
    apply identify_winners_no_bets, reset_clears_bets. }
  split; [exact E|]. unfold view_winners. rewrite Z.eqb_refl. simpl.
  now rewrite E.
Qed.

(** *** Payment attempts in a row *)

(** X13: a user with a bet and no attempt so far can submit three times in
    a row: each submission is accepted, the third carries the final-attempt
    warning, the record then shows Waiting with 3 attempts, and the fourth
    submission is refused and changes nothing. *)
Theorem three_submissions_then_refused (uid : Z) (u : User) (b : Side)
  (db : DB) :
  find_one (q_user_id uid) (users db) = Some u ->
  bet_of u = Some b ->
  payment_attempts u = 0 ->
  let db2 := run [EvPhoto uid; EvPhoto uid] db in
  let db3 := run [EvPhoto uid; EvPhoto uid; EvPhoto uid] db in
  fst (handle_payment_screenshot uid db2)
  = [ reply_text MsgFinalAttempt;
      forward_message ADMIN_ID;
      send_message ADMIN_ID (MsgNewPayment uid (name u) (Some b) 3);
      reply_text MsgScreenshotSent ] /\
  find_one (q_user_id uid) (users db3)
  = Some (mkUser (user_id u) (name u) (Some b) (Some waiting) 3) /\
  handle_payment_screenshot uid db3 = ([reply_text MsgMaxAttempts], db3).
Proof.
  intros Hf Hb H0 db2 db3.
  assert (Hstep : forall d x k,
             find_one (q_user_id uid) (users d) = Some x ->
             bet_of x = Some b -> payment_attempts x = k -> k < 3 ->
             find_one (q_user_id uid) (users (step (EvPhoto uid) d))
             = Some (mkUser (user_id x) (name x) (Some b) (Some waiting) (k + 1))).
  { intros d x k Hx Hbx Hk Hlt. unfold step. simpl.
    rewrite (handle_payment_screenshot_accepted uid x b d Hx Hbx) by lia.
    simpl. rewrite (payment_writes_record uid x _ Hx). now rewrite Hbx, Hk. }
  assert (H1 := Hstep db u 0 Hf Hb H0 ltac:(lia)).
  assert (H2 := Hstep _ _ 1 H1 eq_refl eq_refl ltac:(lia)). simpl in H2.
  assert (H3 := Hstep _ _ 2 H2 eq_refl eq_refl ltac:(lia)). simpl in H3.
  change (step (EvPhoto uid) (step (EvPhoto uid) db)) with db2 in H2, H3.
  change (step (EvPhoto uid) db2) with db3 in H3.
  split; [|split].
  - rewrite (handle_payment_screenshot_accepted uid _ b db2 H2 eq_refl)
      by (simpl; lia).
    reflexivity.
  - exact H3.
  - apply (handle_payment_screenshot_max uid _ db3 H3); simpl; [discriminate|lia].
Qed.

(** *** Registered ids, winners and listings *)

Lemma In_ids_find_one (w : Z) (us : list User) :
  In w (flat_map (fun u => match user_id u with
                           | Some i => [i]
                           | None => []
                           end) us) ->
  exists u, find_one (q_user_id w) us = Some u.
Proof.
  induction us as [|y rest IH]; simpl; intro H; [destruct H|].
  destruct (q_user_id w y) eqn:Ey; [now exists y|].
  apply IH. apply in_app_or in H as [H|H]; [|exact H].
  exfalso. unfold q_user_id in Ey. destruct (user_id y) as [j|]; simpl in H.
  - destruct H as [->|[]]. rewrite Z.eqb_refl in Ey. discriminate.
  - destruct H.
Qed.

Lemma In_ids (w : Z) (us : list User) :
  In w (flat_map (fun u => match user_id u with
                           | Some i => [i]
                           | None => []
                           end) us) <->
  exists u, In u us /\ user_id u = Some w.
Proof.
  rewrite in_flat_map. split; intros [u [Hu H]]; exists u; split; auto.
  - destruct (user_id u) as [j|]; simpl in H; [|destruct H].
    destruct H as [->|[]]. reflexivity.
  - rewrite H. simpl. auto.
Qed.

Lemma NoDup_ids_filter (q : User -> bool) (us : list User) :
  NoDup (flat_map (fun u => match user_id u with
                            | Some i => [i]
                            | None => []
                            end) us) ->
  NoDup (flat_map (fun u => match user_id u with
                            | Some i => [i]
                            | None => []
                            end) (filter q us)).
Proof.
  induction us as [|y rest IH]; simpl; intro H; [constructor|].
  assert (Hrest : NoDup (flat_map (fun u => match user_id u with
                                            | Some i => [i]
                                            | None => []
                                            end) rest))
    by (destruct (user_id y); simpl in H; [now inversion H | exact H]).
  destruct (q y); simpl; [|now apply IH].
  destruct (user_id y) as [j|]; simpl in *; [|now apply IH].
  inversion H as [|? ? Hnotin _]; subst. constructor; [|now apply IH].
  intro Hin. apply Hnotin. apply In_ids in Hin as [u [Hu Hid]].
  apply In_ids. exists u. split; [|exact Hid].
  now apply filter_In in Hu as [Hu _].
Qed.

(** With unique ids, looking an id up finds the record that carries it. *)
Lemma find_one_unique (w : Z) (us : list User) (u : User) :
  NoDup (flat_map (fun u => match user_id u with
                            | Some i => [i]
                            | None => []
                            end) us) ->
  In u us -> user_id u = Some w ->
  find_one (q_user_id w) us = Some u.
Proof.
  induction us as [|y rest IH]; simpl; intros Hnd Hin Hid; [destruct Hin|].
  destruct Hin as [->|Hin].
  - unfold q_user_id. rewrite Hid, Z.eqb_refl. reflexivity.
  - destruct (q_user_id w y) eqn:Ey.
    + exfalso. unfold q_user_id in Ey.
      destruct (user_id y) as [j|]; [|discriminate].
      apply Z.eqb_eq in Ey. subst j. simpl in Hnd.
      inversion Hnd as [|? ? Hnotin _]; subst. apply Hnotin.
      apply In_ids. now exists u.
    + apply IH; auto.
      destruct (user_id y); simpl in Hnd; [now inversion Hnd | exact Hnd].
Qed.

(** With unique ids, looking up the ids of some of the records gives the
    entries of these records. *)
Lemma lookup_entries (us l : list User) :
  NoDup (flat_map (fun u => match user_id u with
                            | Some i => [i]
                            | None => []
                            end) us) ->
  incl l us ->
  flat_map (fun uid =>
              match find_one (q_user_id uid) us with
              | Some user_data =>
                  [mkEntry uid (name user_data) (bet_of user_data)
                     (status user_data)]
              | None => []
              end)
    (flat_map (fun u => match user_id u with
                        | Some i => [i]
                        | None => []
                        end) l)
  = entries_of l.
Proof.
  intros Hnd. induction l as [|x l' IH]; intro Hincl; [reflexivity|].
  assert (Hx : In x us) by (apply Hincl; now left).
  assert (Hl' : incl l' us) by (intros z Hz; apply Hincl; now right).
  unfold entries_of in *. simpl.
  destruct (user_id x) as [i|] eqn:Ex; simpl; [|now apply IH].
  rewrite (find_one_unique i us x Hnd Hx Ex). simpl. now rewrite IH.
Qed.

(** X14: after a valid [/declare] every winner is the id of a user record;
    when no two records share an id, no id is listed twice among the
    winners and [/winners] shows, for each winner, that user's own record:
    a bet on the declared side and status Approved. *)
Theorem winners_are_registered (a : string) (rest : list string)
  (result : Side) (db : DB) :
  side_of_string (lower a) = Some result ->
  let db' := snd (declare_result ADMIN_ID (a :: rest) db) in
  (forall w, In w (winners db') ->
     In w (registered_ids db') /\
     exists u, find_one (q_user_id w) (users db') = Some u) /\
  (NoDup (registered_ids db) ->
     NoDup (winners db') /\
     (winners db' <> [] ->
        view_winners ADMIN_ID db'
        = ViewWinners (entries_of (find_all (q_bet_approved result) (users db))) /\
        Forall (fun e => entry_bet e = Some result /\
                         entry_status e = Some approved)
          (entries_of (find_all (q_bet_approved result) (users db))))).
Proof.
  intros H db'. subst db'. rewrite (declare_result_valid a rest result db H).
  simpl. unfold registered_ids. simpl. split.
  - intros w Hw.
    assert (Hreg : In w (flat_map (fun u => match user_id u with
                                            | Some i => [i]
                                            | None => []
                                            end) (users db))).
    { apply In_ids. apply In_identify_winners in Hw as (u & Hu & Hid & _).
      now exists u. }
    split; [exact Hreg | now apply In_ids_find_one].
  - intro Hnd. split; [now apply NoDup_ids_filter|].
    intro Hne. split.
    + unfold view_winners. rewrite Z.eqb_refl. cbn [negb winners users].
      destruct (identify_winners result (users db)) as [|w ws] eqn:Ew;
        [congruence|].
      cbv iota beta. rewrite <- Ew. f_equal. unfold identify_winners.
      apply lookup_entries; [exact Hnd|].
      intros z Hz. now apply filter_In in Hz as [Hz _].
    + apply Forall_forall. intros e He. unfold entries_of in He.
      apply in_flat_map in He as [u [Hu He]].
      apply filter_In in Hu as [_ Hq].
      apply q_bet_approved_true in Hq as [Hb Hs].
      destruct (user_id u); simpl in He; [|destruct He].
      destruct He as [<-|[]]. simpl. auto.
Qed.

(** *** Notifications *)

Lemma notify_all_app (m : Msg) (us1 us2 : list User) :
  notify_all m (us1 ++ us2) = notify_all m us1 ++ notify_all m us2.
Proof. unfold notify_all. apply flat_map_app. Qed.

Lemma notify_until_KeyError_all (m : Msg) (on_error : list Out)
  (us : list User) :
  Forall (fun u => user_id u <> None) us ->
  notify_until_KeyError m on_error us = notify_all m us.
Proof.
  induction 1 as [|u rest Hu _ IH]; simpl; [reflexivity|].
  destruct (user_id u); [|congruence]. simpl. now rewrite IH.
Qed.

Lemma notify_until_KeyError_stops (m : Msg) (on_error : list Out)
  (before after : list User) (u : User) :
  Forall (fun x => user_id x <> None) before ->
  user_id u = None ->
  notify_until_KeyError m on_error (before ++ u :: after)
  = notify_all m before ++ on_error.
Proof.
  intros Hb Hu. induction Hb as [|x rest Hx _ IH]; simpl.
  - now rewrite Hu.
  - destruct (user_id x); [|congruence]. simpl. now rewrite IH.
Qed.

Lemma notify_all_ids (m : Msg) (us : list User) :
  notify_all m us
  = map (fun i => send_message i m)
      (flat_map (fun u => match user_id u with
                          | Some i => [i]
                          | None => []
                          end) us).
Proof.
  unfold notify_all. induction us as [|u rest IH]; simpl; [reflexivity|].
  rewrite map_app, IH. now destruct (user_id u).
Qed.

(** X15: [/close], [/open] and [/setannouncement] write their setting and
    then notify the records in order; when every record has an id all of
    them are notified; at the first record without one the loop is left
    with a [KeyError]: the users after it are not notified, [/close] and
    [/open] end there, [/setannouncement] tells the operator that the
    datetime is invalid, and the setting stays written. *)
Theorem notification_stops_at_record_without_id (a : string)
  (rest : list string) (db : DB) :
  let t := join_args (a :: rest) in
  (Forall (fun u => user_id u <> None) (users db) ->
     fst (close_betting ADMIN_ID db)
     = reply_text MsgBettingNowClosed
       :: notify_all MsgBettingNowClosed (users db) /\
     fst (open_betting ADMIN_ID db)
     = reply_text MsgBettingNowOpen :: notify_all MsgBettingNowOpen (users db) /\
     fst (set_announcement_time ADMIN_ID (a :: rest) db)
     = reply_text (MsgAnnouncementSet t)
       :: notify_all (MsgAnnouncementScheduled t) (users db)) /\
  (forall before u after,
     users db = before ++ u :: after ->
     Forall (fun x => user_id x <> None) before ->
     user_id u = None ->
     fst (close_betting ADMIN_ID db)
     = reply_text MsgBettingNowClosed
       :: notify_all MsgBettingNowClosed before ++ [uncaught_KeyError] /\
     betting_open (settings (snd (close_betting ADMIN_ID db))) = false /\
     fst (open_betting ADMIN_ID db)
     = reply_text MsgBettingNowOpen
       :: notify_all MsgBettingNowOpen before ++ [uncaught_KeyError] /\
     betting_open (settings (snd (open_betting ADMIN_ID db))) = true /\
     fst (set_announcement_time ADMIN_ID (a :: rest) db)
     = reply_text (MsgAnnouncementSet t)
       :: notify_all (MsgAnnouncementScheduled t) before
          ++ [reply_text MsgInvalidDatetime] /\
     result_announcement_time
       (settings (snd (set_announcement_time ADMIN_ID (a :: rest) db)))
     = Some t).
Proof.
  intro t. unfold close_betting, open_betting, set_announcement_time.
  rewrite Z.eqb_refl. simpl. split.
  - intro Hall. now rewrite !notify_until_KeyError_all.
  - intros before u after Hus Hb Hu. rewrite Hus.
    now rewrite !(notify_until_KeyError_stops _ _ before after u Hb Hu).
Qed.

(** X16: [/declare], [/reset] and [/schedule] send their notice to every id
    that has a record, once per record and in order, skipping the records
    without an id, after (or for [/reset] before) the reply to the
    operator. *)
Theorem notices_reach_every_registered_id (a : string) (rest : list string)
  (db : DB) :
  fst (reset ADMIN_ID db)
  = map (fun i => send_message i MsgRoundReset) (registered_ids db)
    ++ [reply_text MsgResetComplete] /\
  fst (schedule_betting ADMIN_ID (a :: rest) db)
  = reply_text (MsgBettingScheduled (join_args (a :: rest)))
    :: map (fun i => send_message i (MsgNewRoundScheduled (join_args (a :: rest))))
         (registered_ids db) /\
  (forall result, side_of_string (lower a) = Some result ->
     fst (declare_result ADMIN_ID (a :: rest) db)
     = reply_text (MsgResultDeclared result)
       :: map (fun i => send_message i (MsgResultsOut result))
            (registered_ids db)).
Proof.
  unfold registered_ids. split; [|split].
  - unfold reset. rewrite Z.eqb_refl. simpl. rewrite notify_all_ids.
    do 2 f_equal.
    assert (E : map user_id (update_many q_bet_ne_None clear_round (users db))
                = map user_id (users db))
      by (apply update_many_map; reflexivity).
    revert E. generalize (update_many q_bet_ne_None clear_round (users db)).
    induction (users db) as [|u us IH]; intros [|x l] E; simpl in *;
      try discriminate; [reflexivity|].
    injection E as Ex El. rewrite Ex. f_equal. now apply IH.
  - unfold schedule_betting. rewrite Z.eqb_refl. simpl.
    now rewrite notify_all_ids.
  - intros result H. rewrite (declare_result_valid a rest result db H). simpl.
    now rewrite notify_all_ids.
Qed.

(** The counters of the sending loop. *)
Lemma broadcast_loop_counts (delivers : Z -> bool) (us : list User) :
  forall s f k,
    let '(s', f', k') := broadcast_loop delivers us s f k in
    (s' + f' + k' = s + f + k + List.length us)%nat /\
    (s' + f'
     = s + f + List.length
                 (flat_map (fun u => match user_id u with
                                     | Some i => [i]
                                     | None => []
                                     end) us))%nat /\
    ((forall i, delivers i = true) -> f' = f).
Proof.
  induction us as [|u rest IH]; intros s f k; simpl.
  - repeat split; lia.
  - destruct (user_id u) as [i|]; simpl.
    + destruct (delivers i) eqn:Ed.
      * specialize (IH (s + 1)%nat f k).
        destruct (broadcast_loop delivers rest (s + 1) f k) as [[s' f'] k'].
        destruct IH as (H1 & H2 & H3). repeat split; try lia. exact H3.
      * specialize (IH s (f + 1)%nat k).
        destruct (broadcast_loop delivers rest s (f + 1) k) as [[s' f'] k'].
        destruct IH as (H1 & H2 & H3). repeat split; try lia.
        intro Hall. rewrite Hall in Ed. discriminate.
    + specialize (IH s f (k + 1)%nat).
      destruct (broadcast_loop delivers rest s f (k + 1)) as [[s' f'] k'].
      destruct IH as (H1 & H2 & H3). repeat split; try lia. exact H3.
Qed.

(** X17: the summary of [/broadcast <message>] adds up: delivered, failed
    and skipped together are the number of user records, delivered and
    failed together are the number of records with an id, and nothing fails
    when every send goes through. *)
Theorem broadcast_summary_adds_up (delivers : Z -> bool) (a : string)
  (rest : list string) (db : DB) :
  exists s f k,
    broadcast delivers ADMIN_ID (a :: rest) db
    = BroadcastSummary (join_args (a :: rest)) (List.length (users db)) s f k /\
    (s + f + k = List.length (users db))%nat /\
    (s + f = List.length (registered_ids db))%nat /\
    ((forall i, delivers i = true) -> f = 0%nat).
Proof.
  unfold broadcast, registered_ids. rewrite Z.eqb_refl. simpl.
  unfold find_all. rewrite filter_true.
  assert (H := broadcast_loop_counts delivers (users db) 0 0 0).
  destruct (broadcast_loop delivers (users db) 0 0 0) as [[s f] k].
  destruct H as (H1 & H2 & H3). exists s, f, k. repeat split; auto.
Qed.

(** *** What the users and the operator are shown *)

(** X18: what [/status] tells a user along the round: before [/start] to
    start first, after [/start] that no bet is placed, after the bet and
    before any payment that the status is unknown, after the screenshot
    that the payment is pending, after [/approve] that it is approved,
    after [/disapprove] that it is disapproved, and after [/reset] again
    that no bet is placed. *)
Theorem check_status_along_the_round (uid : Z) (full_name a data : string)
  (choice : Side) (db : DB) :
  find_one (q_user_id uid) (users db) = None ->
  py_int a = Some uid ->
  side_of_string data = Some choice ->
  let db1 := snd (start uid full_name db) in
  let db2 := snd (handle_bet_choice uid data db1) in
  let db3 := snd (handle_payment_screenshot uid db2) in
  let db4 := snd (approve_user ADMIN_ID [a] db3) in
  let db5 := snd (disapprove_user ADMIN_ID [a] db3) in
  let db6 := snd (reset ADMIN_ID db4) in
  check_status uid db = ViewStartFirst /\
  check_status uid db1 = ViewNoBetPlaced /\
  check_status uid db2 = ViewUnknownStatus /\
  check_status uid db3 = ViewWaiting choice /\
  check_status uid db4 = ViewApproved choice /\
  check_status uid db5 = ViewDisapproved /\
  check_status uid db6 = ViewNoBetPlaced.
Proof.
  intros Hn Ha Hc db1 db2 db3 db4 db5 db6.
  assert (F1 : find_one (q_user_id uid) (users db1)
               = Some (mkUser (Some uid) full_name None None 0)).
  { subst db1. unfold start. rewrite Hn. simpl. unfold insert_one.
    apply find_one_app_None; [exact Hn|].
    unfold q_user_id. simpl. apply Z.eqb_refl. }
  assert (F2 : find_one (q_user_id uid) (users db2)
               = Some (mkUser (Some uid) full_name (Some choice) None 0)).
  { subst db2. unfold handle_bet_choice. rewrite F1. simpl. rewrite Hc. simpl.
    apply (find_one_update_one _ (set_bet (Some choice)) _
             (mkUser (Some uid) full_name None None 0));
      [reflexivity | exact F1]. }
  assert (F3 : find_one (q_user_id uid) (users db3)
               = Some (mkUser (Some uid) full_name (Some choice)
                         (Some waiting) 1)).
  { subst db3.
    rewrite (handle_payment_screenshot_accepted uid _ choice db2 F2 eq_refl)
      by (simpl; lia).
    simpl. apply (payment_writes_record uid _ _ F2). }
  assert (F4 : find_one (q_user_id uid) (users db4)
               = Some (mkUser (Some uid) full_name (Some choice)
                         (Some approved) 0)).
  { subst db4. apply (approve_user_record a [] uid _ db3 Ha F3). }
  assert (F5 : find_one (q_user_id uid) (users db5)
               = Some (mkUser (Some uid) full_name (Some choice)
                         (Some disapproved) 0)).
  { subst db5. rewrite (disapprove_user_found a [] uid _ db3 Ha F3). simpl.
    apply (find_one_update_one _ (set_status_attempts0 disapproved) _
             (mkUser (Some uid) full_name (Some choice) (Some waiting) 1));
      [reflexivity | exact F3]. }
  assert (F6 : find_one (q_user_id uid) (users db6)
               = Some (mkUser (Some uid) full_name None None 0)).
  { subst db6. unfold reset. rewrite Z.eqb_refl. simpl.
    rewrite find_one_update_many by reflexivity. now rewrite F4. }
  unfold check_status. rewrite Hn, F1, F2, F3, F4, F5, F6. simpl.
  repeat split.
Qed.

Lemma step_results_nonneg (ev : Event) (db : DB) :
  results_nonneg db -> results_nonneg (step ev db).
Proof.
  unfold results_nonneg, step. intros [Hh Ht].
  destruct ev; simpl; unfold_handlers; unfold inc_result; handler_cases;
    simpl; lia.
Qed.

(** X19: the result counters never go below 0 along a sequence of
    operations; with counters at or above 0, [/results] after a valid
    [/declare] shows the counters, the declared one raised by 1, and with
    it the announcement time, and [/results] after a [/reset] says that no
    result is declared and shows no announcement time. *)
Theorem view_results_follows_declarations (evs : list Event) (db : DB) :
  results_nonneg db ->
  results_nonneg (run evs db) /\
  (forall a rest,
      side_of_string (lower a) = Some heads ->
      view_results (snd (declare_result ADMIN_ID (a :: rest) (run evs db)))
      = ViewResultsDeclared (heads_wins (results (run evs db)) + 1)
          (tails_wins (results (run evs db)))
          (result_announcement_time (settings (run evs db)))) /\
  (forall a rest,
      side_of_string (lower a) = Some tails ->
      view_results (snd (declare_result ADMIN_ID (a :: rest) (run evs db)))
      = ViewResultsDeclared (heads_wins (results (run evs db)))
          (tails_wins (results (run evs db)) + 1)
          (result_announcement_time (settings (run evs db)))) /\
  view_results (snd (reset ADMIN_ID (run evs db))) = ViewResultsNotDeclared None.
Proof.
  intro H0.
  assert (H : results_nonneg (run evs db)).
  { apply run_invariant; [|exact H0]. intros ev d. apply step_results_nonneg. }
  split; [exact H|]. destruct H as [Hh Ht]. split; [|split].
  - intros a rest Ha. rewrite (declare_result_valid a rest heads _ Ha).
    unfold view_results. simpl.
    assert (E : (heads_wins (results (run evs db)) + 1 =? 0) = false) by lia.
    now rewrite E.
  - intros a rest Ha. rewrite (declare_result_valid a rest tails _ Ha).
    unfold view_results. simpl.
    assert (E : (tails_wins (results (run evs db)) + 1 =? 0) = false) by lia.
    rewrite E. now rewrite andb_false_r.
  - unfold reset. rewrite Z.eqb_refl. reflexivity.
Qed.

(** X20: [/nextbet] shows the time the operator gave to [/schedule], also
    after a [/declare], a [/close] or an [/open] in between, and shows that
    no round is scheduled once the operator has [/reset]. *)
Theorem next_bet_follows_schedule (a : string) (rest : list string)
  (db : DB) :
  join_args (a :: rest) <> "" ->
  let db1 := snd (schedule_betting ADMIN_ID (a :: rest) db) in
  next_bet db1 = ViewNextRound (join_args (a :: rest)) /\
  (forall args, next_bet (snd (declare_result ADMIN_ID args db1)) = next_bet db1) /\
  next_bet (snd (close_betting ADMIN_ID db1)) = next_bet db1 /\
  next_bet (snd (open_betting ADMIN_ID db1)) = next_bet db1 /\
  next_bet (snd (reset ADMIN_ID db1)) = ViewNoRound.
Proof.
  intros Hne db1. subst db1. unfold schedule_betting. rewrite Z.eqb_refl.
  simpl. unfold next_bet. simpl.
  apply String.eqb_neq in Hne. rewrite Hne.
  split; [reflexivity|]. split; [|split; [|split]].
  - intro args. unfold declare_result. rewrite Z.eqb_refl. simpl.
    destruct args as [|x xs]; simpl; [now rewrite Hne|].
    destruct (side_of_string (lower x)); simpl; now rewrite Hne.
  - unfold close_betting. rewrite Z.eqb_refl. simpl. now rewrite Hne.
  - unfold open_betting. rewrite Z.eqb_refl. simpl. now rewrite Hne.
  - unfold reset. rewrite Z.eqb_refl. reflexivity.
Qed.

Lemma In_entries_of (x : User) (i : Z) (l : list User) :
  In x l -> user_id x = Some i ->
  In (mkEntry i (name x) (bet_of x) (status x)) (entries_of l).
Proof.
  intros Hx Hi. unfold entries_of. apply in_flat_map. exists x.
  split; [exact Hx|]. rewrite Hi. simpl. auto.
Qed.

Lemma In_entry_id (i : Z) (l : list User) :
  In i (map entry_id (entries_of l)) ->
  exists x, In x l /\ user_id x = Some i.
Proof.
  intro H. apply in_map_iff in H as [e [He Hin]]. unfold entries_of in Hin.
  apply in_flat_map in Hin as [x [Hx Hin]]. exists x. split; [exact Hx|].
  destruct (user_id x) as [j|]; simpl in Hin; [|destruct Hin].
  destruct Hin as [<-|[]]. simpl in He. now subst.
Qed.

Lemma ids_update_one (q : User -> bool) (upd : User -> User)
  (us : list User) :
  (forall x, user_id (upd x) = user_id x) ->
  flat_map (fun u => match user_id u with
                     | Some i => [i]
                     | None => []
                     end) (update_one q upd us)
  = flat_map (fun u => match user_id u with
                       | Some i => [i]
                       | None => []
                       end) us.
Proof.
  intro Hid. induction us as [|y rest IH]; simpl; [reflexivity|].
  destruct (q y); simpl; [now rewrite Hid | now rewrite IH].
Qed.

(** With unique ids, the record [update_one] rewrites is the only one with
    its id. *)
Lemma update_one_unique (uid : Z) (upd : User -> User) (us : list User)
  (x : User) :
  (forall y, user_id (upd y) = user_id y) ->
  NoDup (flat_map (fun u => match user_id u with
                            | Some i => [i]
                            | None => []
                            end) us) ->
  In x (update_one (q_user_id uid) upd us) ->
  user_id x = Some uid ->
  exists y, x = upd y.
Proof.
  intros Hid. induction us as [|y rest IH]; simpl; intros Hnd Hin Hx;
    [destruct Hin|].
  assert (Hrest : NoDup (flat_map (fun u => match user_id u with
                                            | Some i => [i]
                                            | None => []
                                            end) rest))
    by (destruct (user_id y); simpl in Hnd; [now inversion Hnd | exact Hnd]).
  destruct (q_user_id uid y) eqn:Ey.
  - destruct Hin as [<-|Hin]; [now exists y|].
    exfalso. unfold q_user_id in Ey.
    destruct (user_id y) as [j|]; [|discriminate].
    apply Z.eqb_eq in Ey. subst j. simpl in Hnd.
    inversion Hnd as [|? ? Hnotin _]; subst. apply Hnotin.
    apply In_ids. now exists x.
  - destruct Hin as [<-|Hin]; [|now apply IH].
    exfalso. unfold q_user_id in Ey. rewrite Hx, Z.eqb_refl in Ey.
    discriminate.
Qed.

(** X21: a user whose payment submission was accepted is on the
    operator's [/pending] list, as Waiting and with the bet placed; when no
    two records share an id, the user is off that list once the operator
    has approved or disapproved. *)
Theorem pending_list_follows_review (uid : Z) (u : User) (b : Side)
  (a : string) (rest : list string) (db : DB) :
  find_one (q_user_id uid) (users db) = Some u ->
  bet_of u = Some b ->
  payment_attempts u < 3 ->
  py_int a = Some uid ->
  NoDup (registered_ids db) ->
  let db1 := snd (handle_payment_screenshot uid db) in
  (exists es,
      view_pending_confirmations ADMIN_ID db1 = ViewPending es /\
      In (mkEntry uid (name u) (Some b) (Some waiting)) es) /\
  (forall es,
      view_pending_confirmations ADMIN_ID
        (snd (approve_user ADMIN_ID (a :: rest) db1)) = ViewPending es ->
      ~ In uid (map entry_id es)) /\
  (forall es,
      view_pending_confirmations ADMIN_ID
        (snd (disapprove_user ADMIN_ID (a :: rest) db1)) = ViewPending es ->
      ~ In uid (map entry_id es)).
Proof.
  intros Hf Hb Hlt Ha Hnd db1.
  assert (F1 : find_one (q_user_id uid) (users db1)
               = Some (mkUser (user_id u) (name u) (bet_of u) (Some waiting)
                         (payment_attempts u + 1))).
  { subst db1. rewrite (handle_payment_screenshot_accepted uid u b db Hf Hb Hlt).
    simpl. now apply payment_writes_record. }
  assert (Hid : user_id u = Some uid).
  { apply find_one_Some in Hf as [_ Hq]. unfold q_user_id in Hq.
    destruct (user_id u) as [j|]; [|discriminate].
    apply Z.eqb_eq in Hq. now subst. }
  assert (Hnd1 : NoDup (registered_ids db1)).
  { subst db1. rewrite (handle_payment_screenshot_accepted uid u b db Hf Hb Hlt).
    unfold registered_ids in *. simpl.
    now rewrite !ids_update_one by reflexivity. }
  assert (Hoff : forall s es,
             s <> waiting ->
             view_pending_confirmations ADMIN_ID
               (with_users (update_one (q_user_id uid) (set_status_attempts0 s))
                  db1) = ViewPending es ->
             ~ In uid (map entry_id es)).
  { intros s es Hs Hview Hin. unfold view_pending_confirmations in Hview.
    rewrite Z.eqb_refl in Hview. cbn [negb users with_users] in Hview.
    destruct (find_all q_status_waiting
                (update_one (q_user_id uid) (set_status_attempts0 s)
                   (users db1))) as [|p ps] eqn:Ep; [discriminate|].
    cbv iota beta in Hview.
    assert (Hes : es = entries_of (p :: ps)) by congruence.
    rewrite Hes, <- Ep in Hin.
    apply In_entry_id in Hin as [x [Hx Hxid]].
    apply filter_In in Hx as [Hx Hw].
    assert (Hkeep : forall y, user_id (set_status_attempts0 s y) = user_id y)
      by reflexivity.
    destruct (update_one_unique uid (set_status_attempts0 s) (users db1) x
                Hkeep Hnd1 Hx Hxid) as [y ->].
    unfold q_status_waiting in Hw. simpl in Hw. destruct s; congruence. }
  split; [|split].
  - unfold view_pending_confirmations. rewrite Z.eqb_refl. cbn [negb].
    apply find_one_Some in F1 as [Hin _].
    assert (Hw : In (mkUser (user_id u) (name u) (bet_of u) (Some waiting)
                       (payment_attempts u + 1))
                   (find_all q_status_waiting (users db1)))
      by (apply filter_In; split; [exact Hin | reflexivity]).
    destruct (find_all q_status_waiting (users db1)) as [|p ps] eqn:Ep;
      [destruct Hw|].
    cbv iota beta. eexists. split; [reflexivity|].
    rewrite <- Hb.
    apply (In_entries_of _ uid _ Hw). exact Hid.
  - intros es. rewrite (approve_user_found a rest uid _ db1 Ha F1).
    cbn [snd]. intro Hview. apply (Hoff approved es); [discriminate|].
    exact Hview.
  - intros es. rewrite (disapprove_user_found a rest uid _ db1 Ha F1).
    cbn [snd]. apply Hoff. discriminate.
Qed.

(** X22: after a valid [/declare] every winner is on the operator's
    [/participants] list. *)
Theorem winners_are_participants (a : string) (rest : list string)
  (result : Side) (db : DB) (w : Z) :
  side_of_string (lower a) = Some result ->
  let db' := snd (declare_result ADMIN_ID (a :: rest) db) in
  In w (winners db') ->
  exists es,
    view_participants ADMIN_ID db' = ViewParticipants es /\
    In w (map entry_id es).
Proof.
  intros H db'. subst db'. rewrite (declare_result_valid a rest result db H).
  simpl. intro Hw. apply In_identify_winners in Hw as (u & Hu & Hid & Hb & Hs).
  unfold view_participants. rewrite Z.eqb_refl. cbn [negb users].
  assert (Hp : In u (find_all q_participant (users db))).
  { apply filter_In. split; [exact Hu|]. unfold q_participant.
    now rewrite Hs, Hb. }
  destruct (find_all q_participant (users db)) as [|p ps] eqn:Ep;
    [destruct Hp|].
  cbv iota beta. eexists. split; [reflexivity|].
  apply in_map_iff. exists (mkEntry w (name u) (bet_of u) (status u)).
  split; [reflexivity|]. now apply In_entries_of.
Qed.

(** *** Refusals *)

(** X23: an id without a record, one the store can hold (8 bytes), cannot
    act and cannot be acted on: its button press, photo and [/status] are
    answered with the start-first reply, an [/approve] or [/disapprove]
    naming it with the not-found reply, and the database is left as it
    is. *)
Theorem unknown_user_changes_nothing (uid : Z) (db : DB) :
  - 2 ^ 63 <= uid < 2 ^ 63 ->
  find_one (q_user_id uid) (users db) = None ->
  (forall data,
      handle_bet_choice uid data db = ([reply_text MsgStartFirst; answer], db)) /\
  handle_payment_screenshot uid db = ([reply_text MsgStartFirst], db) /\
  check_status uid db = ViewStartFirst /\
  (forall a rest, py_int a = Some uid ->
     approve_user ADMIN_ID (a :: rest) db = ([reply_text MsgUserNotFound], db) /\
     disapprove_user ADMIN_ID (a :: rest) db
     = ([reply_text MsgUserNotFound], db)).
Proof.
  intros _ Hn. split; [|split; [|split]].
  - intro data. unfold handle_bet_choice. now rewrite Hn.
  - unfold handle_payment_screenshot. now rewrite Hn.
  - unfold check_status. now rewrite Hn.
  - intros a rest Ha. unfold approve_user, disapprove_user.
    rewrite Z.eqb_refl. simpl. now rewrite Ha, Hn.
Qed.

(** X24: a registered user without a bet cannot submit a payment: the photo
    is answered with the place-a-bet-first reply and [/status] with the
    no-bet reply, whatever the user's status (Approved included), and a
    button press whose data is neither ["heads"] nor ["tails"] is answered
    with the invalid-choice reply; none of them writes. *)
Theorem no_bet_no_payment (uid : Z) (u : User) (db : DB) :
  find_one (q_user_id uid) (users db) = Some u ->
  bet_of u = None ->
  handle_payment_screenshot uid db = ([reply_text MsgPlaceBetFirst], db) /\
  check_status uid db = ViewNoBetPlaced /\
  (forall data, side_of_string data = None ->
     handle_bet_choice uid data db = ([reply_text MsgInvalidChoice; answer], db)).
Proof.
  intros Hf Hb. unfold handle_payment_screenshot, check_status,
    handle_bet_choice. rewrite Hf, Hb. repeat split.
  intros data ->. reflexivity.
Qed.

(** X25: an operator command without its argument gets the usage reply, a
    [/declare] whose argument is neither heads nor tails the invalid-result
    reply, an [/approve] or [/disapprove] whose argument is no integer ends
    in the uncaught [ValueError]; in all these cases nothing is written. *)
Theorem malformed_command_changes_nothing (db : DB) :
  approve_user ADMIN_ID [] db = ([reply_text MsgUsage], db) /\
  disapprove_user ADMIN_ID [] db = ([reply_text MsgUsage], db) /\
  declare_result ADMIN_ID [] db = ([reply_text MsgUsage], db) /\
  schedule_betting ADMIN_ID [] db = ([reply_text MsgUsage], db) /\
  fix_slots ADMIN_ID [] db = ([reply_text MsgUsage], db) /\
  set_announcement_time ADMIN_ID [] db = ([reply_text MsgUsage], db) /\
  (forall delivers, broadcast delivers ADMIN_ID [] db = BroadcastUsage) /\
  (forall a rest, side_of_string (lower a) = None ->
     declare_result ADMIN_ID (a :: rest) db = ([reply_text MsgInvalidResult], db)) /\
  (forall a rest, py_int a = None ->
     approve_user ADMIN_ID (a :: rest) db = ([uncaught_ValueError], db) /\
     disapprove_user ADMIN_ID (a :: rest) db = ([uncaught_ValueError], db)).
Proof.
  unfold_handlers. unfold broadcast. rewrite Z.eqb_refl. simpl.
  repeat split; intros; try reflexivity;
    match goal with H : _ = None |- _ => now rewrite H end.
Qed.

Ltac letter_case :=
  split;
  [ let H := fresh in
    intro H; vm_compute in H;
    first [discriminate H | left; reflexivity | right; reflexivity]
  | let H := fresh in
    intros [H|H]; first [discriminate H | reflexivity] ].

Lemma lower_ascii_h (c : ascii) :
  lower_ascii c = "h"%char <-> c = "h"%char \/ c = "H"%char.
Proof. destruct c as [[] [] [] [] [] [] [] []]; letter_case. Qed.

Lemma lower_ascii_e (c : ascii) :
  lower_ascii c = "e"%char <-> c = "e"%char \/ c = "E"%char.
Proof. destruct c as [[] [] [] [] [] [] [] []]; letter_case. Qed.

Lemma lower_ascii_a (c : ascii) :
  lower_ascii c = "a"%char <-> c = "a"%char \/ c = "A"%char.
Proof. destruct c as [[] [] [] [] [] [] [] []]; letter_case. Qed.

Lemma lower_ascii_d (c : ascii) :
  lower_ascii c = "d"%char <-> c = "d"%char \/ c = "D"%char.
Proof. destruct c as [[] [] [] [] [] [] [] []]; letter_case. Qed.

Lemma lower_ascii_t (c : ascii) :
  lower_ascii c = "t"%char <-> c = "t"%char \/ c = "T"%char.
Proof. destruct c as [[] [] [] [] [] [] [] []]; letter_case. Qed.

Lemma lower_ascii_i (c : ascii) :
  lower_ascii c = "i"%char <-> c = "i"%char \/ c = "I"%char.
Proof. destruct c as [[] [] [] [] [] [] [] []]; letter_case. Qed.

Lemma lower_ascii_l (c : ascii) :
  lower_ascii c = "l"%char <-> c = "l"%char \/ c = "L"%char.
Proof. destruct c as [[] [] [] [] [] [] [] []]; letter_case. Qed.

Lemma lower_ascii_s (c : ascii) :
  lower_ascii c = "s"%char <-> c = "s"%char \/ c = "S"%char.
Proof. destruct c as [[] [] [] [] [] [] [] []]; letter_case. Qed.

Lemma lower_heads (a : string) :
  lower a = "heads" <->
  exists c1 c2 c3 c4 c5,
    a = String c1 (String c2 (String c3 (String c4 (String c5 "")))) /\
      (c1 = "h"%char \/ c1 = "H"%char) /\
      (c2 = "e"%char \/ c2 = "E"%char) /\
      (c3 = "a"%char \/ c3 = "A"%char) /\
      (c4 = "d"%char \/ c4 = "D"%char) /\
      (c5 = "s"%char \/ c5 = "S"%char).
Proof.
  split.
  - destruct a as [|c1 [|c2 [|c3 [|c4 [|c5 [|c6 r]]]]]]; simpl; intro H;
      try discriminate H.
    injection H as H1 H2 H3 H4 H5.
    exists c1, c2, c3, c4, c5. split; [reflexivity|].
    apply lower_ascii_h in H1. apply lower_ascii_e in H2.
    apply lower_ascii_a in H3. apply lower_ascii_d in H4.
    apply lower_ascii_s in H5. auto.
  - intros (c1 & c2 & c3 & c4 & c5 & -> & H1 & H2 & H3 & H4 & H5). simpl.
    apply lower_ascii_h in H1. apply lower_ascii_e in H2.
    apply lower_ascii_a in H3. apply lower_ascii_d in H4.
    apply lower_ascii_s in H5. now rewrite H1, H2, H3, H4, H5.
Qed.

Lemma lower_tails (a : string) :
  lower a = "tails" <->
  exists c1 c2 c3 c4 c5,
    a = String c1 (String c2 (String c3 (String c4 (String c5 "")))) /\
      (c1 = "t"%char \/ c1 = "T"%char) /\
      (c2 = "a"%char \/ c2 = "A"%char) /\
      (c3 = "i"%char \/ c3 = "I"%char) /\
      (c4 = "l"%char \/ c4 = "L"%char) /\
      (c5 = "s"%char \/ c5 = "S"%char).
Proof.
  split.
  - destruct a as [|c1 [|c2 [|c3 [|c4 [|c5 [|c6 r]]]]]]; simpl; intro H;
      try discriminate H.
    injection H as H1 H2 H3 H4 H5.
    exists c1, c2, c3, c4, c5. split; [reflexivity|].
    apply lower_ascii_t in H1. apply lower_ascii_a in H2.
    apply lower_ascii_i in H3. apply lower_ascii_l in H4.
    apply lower_ascii_s in H5. auto.
  - intros (c1 & c2 & c3 & c4 & c5 & -> & H1 & H2 & H3 & H4 & H5). simpl.
    apply lower_ascii_t in H1. apply lower_ascii_a in H2.
    apply lower_ascii_i in H3. apply lower_ascii_l in H4.
    apply lower_ascii_s in H5. now rewrite H1, H2, H3, H4, H5.
Qed.

Lemma side_of_string_Some (x : string) (result : Side) :
  side_of_string x = Some result <-> x = callback_data result.
Proof.
  unfold side_of_string.
  destruct (String.eqb x "heads") eqn:Eh.
  - apply String.eqb_eq in Eh. subst x.
    destruct result; simpl; split; intro H; congruence.
  - destruct (String.eqb x "tails") eqn:Et.
    + apply String.eqb_eq in Et. subst x.
      destruct result; simpl; split; intro H; congruence.
    + apply String.eqb_neq in Eh. apply String.eqb_neq in Et.
      destruct result; simpl; split; intro H; congruence.
Qed.

(** X26: [/declare] reads its side whatever the case of the letters: an
    argument that spells heads with each letter in upper or lower case is
    handled as ["heads"] is, one that spells tails so as ["tails"] is,
    whatever further arguments follow; every other argument gets the
    invalid-result reply and nothing is written. *)
Theorem declare_result_ignores_case (a : string) (rest : list string)
  (db : DB) :
  (forall c1 c2 c3 c4 c5,
      a = String c1 (String c2 (String c3 (String c4 (String c5 "")))) ->
      c1 = "h"%char \/ c1 = "H"%char ->
      c2 = "e"%char \/ c2 = "E"%char ->
      c3 = "a"%char \/ c3 = "A"%char ->
      c4 = "d"%char \/ c4 = "D"%char ->
      c5 = "s"%char \/ c5 = "S"%char ->
      declare_result ADMIN_ID (a :: rest) db
      = declare_result ADMIN_ID ["heads"] db) /\
  (forall c1 c2 c3 c4 c5,
      a = String c1 (String c2 (String c3 (String c4 (String c5 "")))) ->
      c1 = "t"%char \/ c1 = "T"%char ->
      c2 = "a"%char \/ c2 = "A"%char ->
      c3 = "i"%char \/ c3 = "I"%char ->
      c4 = "l"%char \/ c4 = "L"%char ->
      c5 = "s"%char \/ c5 = "S"%char ->
      declare_result ADMIN_ID (a :: rest) db
      = declare_result ADMIN_ID ["tails"] db) /\
  (~ (exists c1 c2 c3 c4 c5,
        a = String c1 (String c2 (String c3 (String c4 (String c5 "")))) /\
      (c1 = "h"%char \/ c1 = "H"%char) /\
      (c2 = "e"%char \/ c2 = "E"%char) /\
      (c3 = "a"%char \/ c3 = "A"%char) /\
      (c4 = "d"%char \/ c4 = "D"%char) /\
      (c5 = "s"%char \/ c5 = "S"%char)) ->
   ~ (exists c1 c2 c3 c4 c5,
        a = String c1 (String c2 (String c3 (String c4 (String c5 "")))) /\
      (c1 = "t"%char \/ c1 = "T"%char) /\
      (c2 = "a"%char \/ c2 = "A"%char) /\
      (c3 = "i"%char \/ c3 = "I"%char) /\
      (c4 = "l"%char \/ c4 = "L"%char) /\
      (c5 = "s"%char \/ c5 = "S"%char)) ->
   declare_result ADMIN_ID (a :: rest) db = ([reply_text MsgInvalidResult], db)).
Proof.
  split; [|split].
  - intros c1 c2 c3 c4 c5 Ha H1 H2 H3 H4 H5.
    assert (E : side_of_string (lower a) = Some heads).
    { apply side_of_string_Some. apply lower_heads.
      exists c1, c2, c3, c4, c5. repeat split; assumption. }
    rewrite (declare_result_valid a rest heads db E).
    now rewrite (declare_result_valid "heads" [] heads db eq_refl).
  - intros c1 c2 c3 c4 c5 Ha H1 H2 H3 H4 H5.
    assert (E : side_of_string (lower a) = Some tails).
    { apply side_of_string_Some. apply lower_tails.
      exists c1, c2, c3, c4, c5. repeat split; assumption. }
    rewrite (declare_result_valid a rest tails db E).
    now rewrite (declare_result_valid "tails" [] tails db eq_refl).
  - intros Hh Ht. unfold declare_result. rewrite Z.eqb_refl. simpl.
    destruct (side_of_string (lower a)) as [[|]|] eqn:E; [| |reflexivity].
    + exfalso. apply Hh. apply lower_heads.
      now apply side_of_string_Some in E.
    + exfalso. apply Ht. apply lower_tails.
      now apply side_of_string_Some in E.
Qed.

Lemma entry_ids (us : list User) :
  map entry_id (entries_of us)
  = flat_map (fun u => match user_id u with
                       | Some i => [i]
                       | None => []
                       end) us.
Proof.
  unfold entries_of. induction us as [|u rest IH]; simpl; [reflexivity|].
  rewrite map_app, IH. now destruct (user_id u).
Qed.

(** X27: [/showall] by the operator lists the records that have an id, one
    entry each and in order, under a count of all records: the count
    exceeds the entries by the number of records without an id; with no
    record at all it answers that nobody has started the bot. *)
Theorem show_all_users_count (db : DB) :
  (users db = [] -> show_all_users ADMIN_ID db = ViewNoUsers) /\
  (users db <> [] ->
     exists es,
       show_all_users ADMIN_ID db = ViewAllUsers (List.length (users db)) es /\
       map entry_id es = registered_ids db /\
       (List.length es
        + List.length (filter (fun u => match user_id u with
                                         | Some _ => false
                                         | None => true
                                         end) (users db))
        = List.length (users db))%nat).
Proof.
  unfold show_all_users, registered_ids, find_all. rewrite Z.eqb_refl.
  rewrite filter_true. simpl. split.
  - intros ->. reflexivity.
  - intro Hne. destruct (users db) as [|u us] eqn:Eu; [congruence|].
    eexists. split; [reflexivity|]. split; [apply entry_ids|].
    clear Eu Hne. generalize (u :: us). intro l. unfold entries_of.
    induction l as [|x l IH]; simpl; [reflexivity|].
    rewrite length_app. destruct (user_id x); simpl; lia.
Qed.

(** X28: [/slots] shows all slots free again after a valid [/declare] and
    after a [/reset], and one slot fewer after each [/approve] of an
    existing user, also below 0. *)
Theorem view_slots_follows_round (a : string) (rest : list string)
  (db : DB) :
  view_slots (snd (reset ADMIN_ID db))
  = ViewSlots (total_slots (settings db)) (total_slots (settings db)) /\
  (forall result, side_of_string (lower a) = Some result ->
     view_slots (snd (declare_result ADMIN_ID (a :: rest) db))
     = ViewSlots (total_slots (settings db)) (total_slots (settings db))) /\
  (forall uid u,
     py_int a = Some uid ->
     find_one (q_user_id uid) (users db) = Some u ->
     view_slots (snd (approve_user ADMIN_ID (a :: rest) db))
     = ViewSlots (available_slots (settings db) - 1)
         (total_slots (settings db))).
Proof.
  split; [|split].
  - unfold reset. rewrite Z.eqb_refl. reflexivity.
  - intros result H. now rewrite (declare_result_valid a rest result db H).
  - intros uid u Ha Hf. rewrite (approve_user_found a rest uid u db Ha Hf).
    unfold view_slots. simpl. f_equal.
Qed.

End Bot.

(** ** Concrete runs *)

(** C1, as stated, fails: from the fresh database, with one slot, two users
    bet and pay and the operator approves both; [available_slots] ends
    at -1. *)
Lemma approvals_break_slots_invariant :
  slots_invariant initial_db /\
  available_slots
    (settings (run operator int_of_decimal oversell_events initial_db)) = -1 /\
  ~ slots_invariant (run operator int_of_decimal oversell_events initial_db).
Proof.
  split; [|split].
  - unfold slots_invariant. simpl. lia.
  - vm_compute. reflexivity.
  - unfold slots_invariant.
    replace (available_slots
               (settings (run operator int_of_decimal oversell_events initial_db)))
      with (-1) by (vm_compute; reflexivity).
    lia.
Qed.

Lemma available_slots_le_total_slots_witness :
  slots_le_total initial_db /\
  slots_le_total (run operator int_of_decimal oversell_events initial_db).
Proof.
  assert (H : slots_le_total initial_db) by (unfold slots_le_total; simpl; lia).
  split; [exact H|].
  apply (available_slots_le_total_slots operator int_of_decimal
           oversell_events initial_db H).
Defined.

(** C2, as stated, fails: approving user 7 again, already Approved, is
    accepted and takes another slot. *)
Lemma reapprove_not_refused :
  (exists u, find_one (q_user_id 7) (users approved_db) = Some u /\
             status u = Some approved) /\
  fst (approve_user operator int_of_decimal operator ["7"] approved_db)
  = approved_reply 7 /\
  snd (approve_user operator int_of_decimal operator ["7"] approved_db)
  <> approved_db /\
  available_slots
    (settings (snd (approve_user operator int_of_decimal operator ["7"]
                      approved_db))) = 0.
Proof.
  split; [|split; [|split]].
  - eexists. split; reflexivity.
  - reflexivity.
  - vm_compute. discriminate.
  - reflexivity.
Qed.

Lemma approve_user_effect_witness :
  int_of_decimal "7" = Some 7 /\
  find_one (q_user_id 7) (users approved_db)
  = Some (mkUser (Some 7) "A" (Some heads) (Some approved) 0) /\
  available_slots
    (settings (snd (approve_user operator int_of_decimal operator ["7"]
                      approved_db))) = 1 - 1.
Proof.
  split; [reflexivity|]. split; [reflexivity|].
  destruct (approve_user_effect operator int_of_decimal "7" [] 7
              (mkUser (Some 7) "A" (Some heads) (Some approved) 0)
              approved_db eq_refl eq_refl) as [H _].
  destruct (H eq_refl) as (_ & _ & H3). exact H3.
Defined.

Lemma declare_result_winners_witness :
  side_of_string (lower "HEADS") = Some heads /\
  winners (snd (declare_result operator operator ["HEADS"] approved_db)) = [7].
Proof.
  split; [reflexivity|].
  destruct (declare_result_winners operator int_of_decimal "HEADS" [] heads approved_db
              eq_refl) as [H _].
  exact H.
Defined.



Lemma payment_attempts_at_most_3_witness :
  attempts_le_3 initial_db /\
  attempts_le_3 (run operator int_of_decimal oversell_events initial_db).
Proof.
  assert (H : attempts_le_3 initial_db).
  { unfold attempts_le_3. simpl. constructor; [simpl; lia | constructor]. }
  split; [exact H|].
  apply (proj1 (payment_attempts_at_most_3 operator int_of_decimal)
           oversell_events initial_db H).
Defined.

(** C6, as stated, fails: on the first submission of user 7 the database
    after the status write alone is neither the one before the submission
    nor the one after it. *)
Lemma payment_not_atomic : ~ payment_atomic operator 7 bet_placed_db.
Proof.
  intro H. destruct (H 1%nat) as [E|E]; vm_compute in E; discriminate E.
Qed.

Lemma payment_accepted_effect_witness :
  find_one (q_user_id 7) (users bet_placed_db)
  = Some (mkUser (Some 7) "A" (Some heads) None 0) /\
  0 < 3 /\
  find_one (q_user_id 7)
    (users (snd (handle_payment_screenshot operator 7 bet_placed_db)))
  = Some (mkUser (Some 7) "A" (Some heads) (Some waiting) (0 + 1)).
Proof.
  split; [reflexivity|]. split; [lia|].
  destruct (payment_accepted_effect operator 7
              (mkUser (Some 7) "A" (Some heads) None 0) heads bet_placed_db
              eq_refl eq_refl eq_refl) as [H _].
  exact H.
Defined.

Lemma declare_result_frame_witness :
  side_of_string (lower "tails") = Some tails /\
  available_slots
    (settings (snd (declare_result operator operator ["tails"] approved_db)))
  = 2.
Proof.
  split; [reflexivity|].
  destruct (declare_result_frame operator "tails" [] tails approved_db eq_refl)
    as [H _].
  exact H.
Defined.

Lemma reset_effect_witness :
  users (snd (reset operator operator approved_db))
  = [mkUser (Some 7) "A" None None 0] /\
  winners (snd (reset operator operator approved_db)) = [].
Proof.
  split; [reflexivity|].
  destruct (reset_effect operator approved_db) as (_ & _ & H & _).
  exact H.
Defined.

Lemma approve_user_needs_operator_and_record_witness :
  find_one (q_user_id 7) (users (run operator int_of_decimal [EvStart 7 "A"] initial_db))
  = Some (mkUser (Some 7) "A" None None 0) /\
  find_one (q_user_id 7)
    (users (snd (approve_user operator int_of_decimal operator ["7"]
                   (run operator int_of_decimal [EvStart 7 "A"] initial_db))))
  = Some (mkUser (Some 7) "A" None (Some approved) 0).
Proof.
  split; [reflexivity|].
  destruct (approve_user_needs_operator_and_record operator int_of_decimal
              operator ["7"]
              (run operator int_of_decimal [EvStart 7 "A"] initial_db))
    as [_ H].
  destruct (H "7" [] 7 (mkUser (Some 7) "A" None None 0)
              eq_refl eq_refl eq_refl eq_refl) as [H1 _].
  exact H1.
Defined.

Lemma approved_user_pays_again_witness :
  int_of_decimal "7" = Some 7 /\
  find_one (q_user_id 7) (users bet_placed_db)
  = Some (mkUser (Some 7) "A" (Some heads) None 0) /\
  find_one (q_user_id 7)
    (users (snd (handle_payment_screenshot operator 7
                   (snd (approve_user operator int_of_decimal operator ["7"]
                           bet_placed_db)))))
  = Some (mkUser (Some 7) "A" (Some heads) (Some waiting) 1).
Proof.
  split; [reflexivity|]. split; [reflexivity|].
  destruct (approved_user_pays_again operator int_of_decimal "7" [] 7
              (mkUser (Some 7) "A" (Some heads) None 0) heads bet_placed_db
              eq_refl eq_refl eq_refl) as (_ & _ & _ & H & _).
  exact H.
Defined.

(** ** Concrete runs of the further properties *)

Lemma review_db_ids_unique : NoDup (registered_ids review_db).
Proof.
  unfold registered_ids. simpl. constructor.
  - simpl. intros [H|[]]. discriminate H.
  - constructor; [intros [] | constructor].
Defined.

Lemma disapprove_user_effect_witness :
  int_of_decimal "8" = Some 8 /\
  find_one (q_user_id 8) (users review_db)
  = Some (mkUser (Some 8) "B" (Some tails) (Some approved) 0) /\
  settings (snd (disapprove_user operator int_of_decimal operator ["8"]
                   review_db))
  = settings review_db.
Proof.
  split; [reflexivity|]. split; [reflexivity|].
  destruct (disapprove_user_effect operator int_of_decimal "8" [] 8
              (mkUser (Some 8) "B" (Some tails) (Some approved) 0)
              review_db eq_refl eq_refl) as (_ & _ & H & _).
  exact H.
Defined.

Lemma disapproved_user_pays_again_witness :
  int_of_decimal "7" = Some 7 /\
  find_one (q_user_id 7) (users review_db)
  = Some (mkUser (Some 7) "A" (Some heads) (Some waiting) 3) /\
  3 <= 3 /\
  find_one (q_user_id 7)
    (users (snd (handle_payment_screenshot operator 7
                   (snd (disapprove_user operator int_of_decimal operator
                           ["7"] review_db)))))
  = Some (mkUser (Some 7) "A" (Some heads) (Some waiting) 1).
Proof.
  assert (H3 : 3 <= 3) by lia.
  split; [reflexivity|]. split; [reflexivity|]. split; [exact H3|].
  destruct (disapproved_user_pays_again operator int_of_decimal "7" [] 7
              (mkUser (Some 7) "A" (Some heads) (Some waiting) 3) heads
              review_db eq_refl eq_refl eq_refl H3) as (_ & _ & H).
  exact H.
Defined.

Lemma non_operator_refused_witness :
  2 <> operator /\
  approve_user operator int_of_decimal 2 ["8"] review_db
  = ([reply_text MsgNotAuthorized], review_db).
Proof.
  assert (H : 2 <> operator) by (unfold operator; lia).
  split; [exact H|].
  destruct (non_operator_refused operator int_of_decimal 2 ["8"] review_db H)
    as [H1 _].
  exact H1.
Defined.

Lemma only_operator_writes_round_witness :
  issued_by_operator operator (EvFixSlots 2 ["9"]) = false /\
  settings (step operator int_of_decimal (EvFixSlots 2 ["9"]) review_db)
  = settings review_db.
Proof.
  split; [reflexivity|].
  destruct (only_operator_writes_round operator int_of_decimal
              (EvFixSlots 2 ["9"]) review_db eq_refl) as [H _].
  exact H.
Defined.

Lemma start_registers_once_witness :
  find_one (q_user_id 9) (users review_db) = None /\
  find_one (q_user_id 9) (users (snd (start 9 "C" review_db)))
  = Some (mkUser (Some 9) "C" None None 0).
Proof.
  split; [reflexivity|].
  destruct (start_registers_once 9 "C" review_db) as [H _].
  destruct (H eq_refl) as [_ H2]. exact H2.
Defined.

Lemma user_ids_stay_unique_witness :
  NoDup (registered_ids review_db) /\
  NoDup (registered_ids (run operator int_of_decimal oversell_events review_db)).
Proof.
  split; [exact review_db_ids_unique|].
  apply (user_ids_stay_unique operator int_of_decimal oversell_events
           review_db review_db_ids_unique).
Defined.

Lemma other_records_untouched_witness :
  nth_error (users review_db) 2
  = Some (mkUser (Some 8) "B" (Some tails) (Some approved) 0) /\
  user_id (mkUser (Some 8) "B" (Some tails) (Some approved) 0) <> Some 7 /\
  nth_error
    (users (snd (disapprove_user operator int_of_decimal operator ["7"]
                   review_db))) 2
  = Some (mkUser (Some 8) "B" (Some tails) (Some approved) 0).
Proof.
  assert (Hne : user_id (mkUser (Some 8) "B" (Some tails) (Some approved) 0)
                <> Some 7) by (simpl; intro E; discriminate E).
  split; [reflexivity|]. split; [exact Hne|].
  destruct (other_records_untouched operator int_of_decimal 7 2
              (mkUser (Some 8) "B" (Some tails) (Some approved) 0) review_db
              eq_refl Hne) as (_ & _ & _ & H).
  destruct (H operator "7" [] eq_refl) as [_ H2]. exact H2.
Defined.

Lemma fix_slots_effect_witness :
  int_of_decimal "5" = Some 5 /\
  - 2 ^ 63 <= 5 < 2 ^ 63 /\
  total_slots
    (settings (snd (fix_slots operator int_of_decimal operator ["5"]
                      review_db))) = 5 /\
  available_slots
    (settings (snd (fix_slots operator int_of_decimal operator ["5"]
                      review_db))) = 5.
Proof.
  assert (Hr : - 2 ^ 63 <= 5 < 2 ^ 63) by (split; [discriminate | reflexivity]).
  split; [reflexivity|]. split; [exact Hr|].
  destruct (fix_slots_effect operator int_of_decimal "5" [] review_db)
    as [H _].
  destruct (H 5 eq_refl Hr) as (_ & H1 & H2 & _).
  split; [exact H1 | exact H2].
Defined.

Lemma close_and_open_betting_witness :
  betting_open (settings review_db) = true /\
  bet (snd (close_betting operator operator review_db))
  = ([reply_text MsgBettingClosed],
     mkDB (users review_db) (mkSettings None false 2 1 None)
       (results review_db) (winners review_db)).
Proof.
  split; [reflexivity|].
  destruct (close_and_open_betting operator review_db) as (H & _).
  exact H.
Defined.

Lemma reset_then_bet_again_witness :
  find_one (q_user_id 8) (users review_db)
  = Some (mkUser (Some 8) "B" (Some tails) (Some approved) 0) /\
  find_one (q_user_id 8)
    (users (snd (handle_bet_choice 8 "heads"
                   (snd (reset operator operator review_db)))))
  = Some (mkUser (Some 8) "B" (Some heads) None 0).
Proof.
  split; [reflexivity|].
  destruct (reset_then_bet_again operator 8
              (mkUser (Some 8) "B" (Some tails) (Some approved) 0) heads
              review_db eq_refl) as (_ & _ & H & _).
  apply H. simpl. intro E. discriminate E.
Defined.

Lemma declare_after_reset_no_winners_witness :
  side_of_string (lower "Tails") = Some tails /\
  winners (snd (declare_result operator operator ["Tails"]
                  (snd (reset operator operator review_db)))) = [].
Proof.
  split; [reflexivity|].
  destruct (declare_after_reset_no_winners operator "Tails" [] tails review_db
              eq_refl) as [H _].
  exact H.
Defined.

Lemma three_submissions_then_refused_witness :
  find_one (q_user_id 7) (users bet_placed_db)
  = Some (mkUser (Some 7) "A" (Some heads) None 0) /\
  find_one (q_user_id 7)
    (users (run operator int_of_decimal [EvPhoto 7; EvPhoto 7; EvPhoto 7]
              bet_placed_db))
  = Some (mkUser (Some 7) "A" (Some heads) (Some waiting) 3).
Proof.
  split; [reflexivity|].
  destruct (three_submissions_then_refused operator int_of_decimal 7
              (mkUser (Some 7) "A" (Some heads) None 0) heads bet_placed_db
              eq_refl eq_refl eq_refl) as (_ & H & _).
  exact H.
Defined.

Lemma winners_are_registered_witness :
  side_of_string (lower "tails") = Some tails /\
  NoDup (registered_ids review_db) /\
  NoDup (winners (snd (declare_result operator operator ["tails"] review_db))).
Proof.
  split; [reflexivity|]. split; [exact review_db_ids_unique|].
  destruct (winners_are_registered operator "tails" [] tails review_db eq_refl)
    as [_ H].
  destruct (H review_db_ids_unique) as [H1 _]. exact H1.
Defined.

Lemma notification_stops_at_record_without_id_witness :
  users review_db
  = [] ++ mkUser None "" None None 0
       :: [ mkUser (Some 7) "A" (Some heads) (Some waiting) 3;
            mkUser (Some 8) "B" (Some tails) (Some approved) 0 ] /\
  fst (open_betting operator operator review_db)
  = [reply_text MsgBettingNowOpen; uncaught_KeyError].
Proof.
  split; [reflexivity|].
  destruct (notification_stops_at_record_without_id operator "noon" []
              review_db) as [_ H].
  destruct (H [] (mkUser None "" None None 0)
              [ mkUser (Some 7) "A" (Some heads) (Some waiting) 3;
                mkUser (Some 8) "B" (Some tails) (Some approved) 0 ]
              eq_refl (Forall_nil _) eq_refl) as (_ & _ & H3 & _).
  exact H3.
Defined.

Lemma notices_reach_every_registered_id_witness :
  fst (reset operator operator review_db)
  = [ send_message 7 MsgRoundReset; send_message 8 MsgRoundReset;
      reply_text MsgResetComplete ].
Proof.
  destruct (notices_reach_every_registered_id operator "heads" [] review_db)
    as [H _].
  exact H.
Defined.

Lemma broadcast_summary_adds_up_witness :
  exists s f k,
    broadcast operator (fun i => i =? 7) operator ["hello"] review_db
    = BroadcastSummary "hello" 3 s f k /\
    (s + f + k = 3)%nat.
Proof.
  destruct (broadcast_summary_adds_up operator (fun i => i =? 7) "hello" []
              review_db) as (s & f & k & H1 & H2 & _).
  exists s, f, k. split; [exact H1 | exact H2].
Defined.

Lemma check_status_along_the_round_witness :
  find_one (q_user_id 9) (users review_db) = None /\
  int_of_decimal "9" = Some 9 /\
  side_of_string "heads" = Some heads /\
  check_status 9
    (snd (handle_bet_choice 9 "heads" (snd (start 9 "C" review_db))))
  = ViewUnknownStatus.
Proof.
  split; [reflexivity|]. split; [reflexivity|]. split; [reflexivity|].
  destruct (check_status_along_the_round operator int_of_decimal 9 "C" "9"
              "heads" heads review_db eq_refl eq_refl eq_refl)
    as (_ & _ & H & _).
  exact H.
Defined.

Lemma view_results_follows_declarations_witness :
  results_nonneg review_db /\
  view_results (snd (declare_result operator operator ["heads"] review_db))
  = ViewResultsDeclared 1 0 None.
Proof.
  assert (H : results_nonneg review_db)
    by (unfold results_nonneg; simpl; lia).
  split; [exact H|].
  destruct (view_results_follows_declarations operator int_of_decimal []
              review_db H) as (_ & H2 & _).
  exact (H2 "heads" [] eq_refl).
Defined.

Lemma next_bet_follows_schedule_witness :
  join_args ["18:00"] <> "" /\
  next_bet (snd (schedule_betting operator operator ["18:00"] review_db))
  = ViewNextRound "18:00".
Proof.
  assert (H : join_args ["18:00"] <> "")
    by (vm_compute; intro E; discriminate E).
  split; [exact H|].
  destruct (next_bet_follows_schedule operator "18:00" [] review_db H)
    as [H1 _].
  exact H1.
Defined.

Lemma pending_list_follows_review_witness :
  find_one (q_user_id 7) (users bet_placed_db)
  = Some (mkUser (Some 7) "A" (Some heads) None 0) /\
  0 < 3 /\
  int_of_decimal "7" = Some 7 /\
  NoDup (registered_ids bet_placed_db) /\
  exists es,
    view_pending_confirmations operator operator
      (snd (handle_payment_screenshot operator 7 bet_placed_db))
    = ViewPending es /\
    In (mkEntry 7 "A" (Some heads) (Some waiting)) es.
Proof.
  assert (Hlt : 0 < 3) by lia.
  assert (Hnd : NoDup (registered_ids bet_placed_db)).
  { unfold registered_ids. simpl. constructor; [intros [] | constructor]. }
  split; [reflexivity|]. split; [exact Hlt|]. split; [reflexivity|].
  split; [exact Hnd|].
  destruct (pending_list_follows_review operator int_of_decimal 7
              (mkUser (Some 7) "A" (Some heads) None 0) heads "7" []
              bet_placed_db eq_refl eq_refl Hlt eq_refl Hnd) as [H _].
  exact H.
Defined.

Lemma winners_are_participants_witness :
  side_of_string (lower "tails") = Some tails /\
  In 8 (winners (snd (declare_result operator operator ["tails"] review_db))) /\
  exists es,
    view_participants operator operator
      (snd (declare_result operator operator ["tails"] review_db))
    = ViewParticipants es /\
    In 8 (map entry_id es).
Proof.
  assert (Hin : In 8 (winners (snd (declare_result operator operator
                                      ["tails"] review_db))))
    by (simpl; left; reflexivity).
  split; [reflexivity|]. split; [exact Hin|].
  apply (winners_are_participants operator "tails" [] tails review_db 8
           eq_refl Hin).
Defined.

Lemma unknown_user_changes_nothing_witness :
  - 2 ^ 63 <= 9 < 2 ^ 63 /\
  find_one (q_user_id 9) (users review_db) = None /\
  int_of_decimal "9" = Some 9 /\
  approve_user operator int_of_decimal operator ["9"] review_db
  = ([reply_text MsgUserNotFound], review_db).
Proof.
  assert (Hr : - 2 ^ 63 <= 9 < 2 ^ 63) by (split; [discriminate | reflexivity]).
  split; [exact Hr|]. split; [reflexivity|]. split; [reflexivity|].
  destruct (unknown_user_changes_nothing operator int_of_decimal 9 review_db
              Hr eq_refl) as (_ & _ & _ & H).
  destruct (H "9" [] eq_refl) as [H1 _]. exact H1.
Defined.

Lemma no_bet_no_payment_witness :
  find_one (q_user_id 9) (users (snd (start 9 "C" review_db)))
  = Some (mkUser (Some 9) "C" None None 0) /\
  handle_payment_screenshot operator 9 (snd (start 9 "C" review_db))
  = ([reply_text MsgPlaceBetFirst], snd (start 9 "C" review_db)).
Proof.
  split; [reflexivity|].
  destruct (no_bet_no_payment operator 9 (mkUser (Some 9) "C" None None 0)
              (snd (start 9 "C" review_db)) eq_refl eq_refl) as [H _].
  exact H.
Defined.

Lemma malformed_command_changes_nothing_witness :
  int_of_decimal "seven" = None /\
  approve_user operator int_of_decimal operator ["seven"] review_db
  = ([uncaught_ValueError], review_db).
Proof.
  split; [reflexivity|].
  destruct (malformed_command_changes_nothing operator int_of_decimal
              review_db) as (_ & _ & _ & _ & _ & _ & _ & _ & H).
  destruct (H "seven" [] eq_refl) as [H1 _]. exact H1.
Defined.

Lemma show_all_users_count_witness :
  users review_db <> [] /\
  exists es,
    show_all_users operator operator review_db = ViewAllUsers 3 es /\
    map entry_id es = [7; 8].
Proof.
  assert (Hne : users review_db <> []) by (simpl; intro E; discriminate E).
  split; [exact Hne|].
  destruct (show_all_users_count operator review_db) as [_ H].
  destruct (H Hne) as (es & H1 & H2 & _).
  exists es. split; [exact H1 | exact H2].
Defined.

Lemma view_slots_follows_round_witness :
  int_of_decimal "8" = Some 8 /\
  find_one (q_user_id 8) (users review_db)
  = Some (mkUser (Some 8) "B" (Some tails) (Some approved) 0) /\
  view_slots (snd (approve_user operator int_of_decimal operator ["8"]
                     review_db))
  = ViewSlots (1 - 1) 2.
Proof.
  split; [reflexivity|]. split; [reflexivity|].
  destruct (view_slots_follows_round operator int_of_decimal "8" []
              review_db) as (_ & _ & H).
  exact (H 8 (mkUser (Some 8) "B" (Some tails) (Some approved) 0)
           eq_refl eq_refl).
Defined.

Lemma declare_result_ignores_case_witness :
  declare_result operator operator ["HeAdS"; "now"] review_db
  = declare_result operator operator ["heads"] review_db /\
  results (snd (declare_result operator operator ["HeAdS"; "now"] review_db))
  = mkResults 1 0.
Proof.
  destruct (declare_result_ignores_case operator "HeAdS" ["now"] review_db)
    as [H _].
  assert (E : declare_result operator operator ["HeAdS"; "now"] review_db
              = declare_result operator operator ["heads"] review_db).
  { apply (H "H" "e" "A" "d" "S")%char; [reflexivity | | | | |];
      first [left; reflexivity | right; reflexivity]. }
  split; [exact E | reflexivity].
Defined.
